(** * Feature engineering over the Airbnb NYC listings table

    A shallow embedding of [feature_engineering.ipynb]: the notebook loads a
    table, assigns derived columns to it one code cell after the other and
    writes the table out.  The table is a pandas [DataFrame], the cells of a
    column are Python scalars (integers, binary64 floats, strings), and every
    Python operation that can raise is modelled in an error monad.  A row
    handed to a function by [df.apply(..., axis=1)] holds its cells in the
    common dtype of the table, as numpy scalars when that is a number dtype
    and as Python objects otherwise.  Reading
    and writing the CSV files is outside the model: [pipeline] goes from the
    table [read_csv] returned to the table handed to [to_csv]. *)

From Stdlib Require Import ZArith List String Bool Lia PeanoNat.
From Stdlib Require Import SpecFloat.
Import ListNotations.

Local Open Scope string_scope.
Local Open Scope list_scope.
Local Open Scope Z_scope.

(** ** Binary64 floats

    Python's [float] and numpy's [float64] are IEEE-754 binary64 numbers.
    They are modelled by the Standard Library's specification of binary
    floating point at precision 53 and maximal exponent 1024. *)

Module F64.

Definition prec : Z := 53.
Definition emax : Z := 1024.

Definition float : Type := spec_float.

(** [np.nan], [np.inf] and [-np.inf]. *)
Definition nan : float := S754_nan.
Definition inf : float := S754_infinity false.
Definition neg_inf : float := S754_infinity true.

(** Conversion of an integer, rounding to nearest even. *)
Definition of_Z (n : Z) : float := binary_normalize prec emax n 0 false.

(** An integer as an unrounded operand of a division. *)
Definition exact (n : Z) : float :=
  match n with
  | Z0 => S754_zero false
  | Zpos m => S754_finite false m 0
  | Zneg m => S754_finite true m 0
  end.

Definition eqb (x y : float) : bool := SFeqb x y.
Definition ltb (x y : float) : bool := SFltb x y.
Definition leb (x y : float) : bool := SFleb x y.
Definition div (x y : float) : float := SFdiv prec emax x y.

Definition is_zero (x : float) : bool :=
  match x with S754_zero _ => true | _ => false end.

Definition is_inf (x : float) : bool :=
  match x with S754_infinity _ => true | _ => false end.

(** The least magnitude that rounds to an infinity: the largest finite
    binary64 number plus half a unit in its last place. *)
Definition overflow_threshold : Z := 2 ^ 1024 - 2 ^ 970.

End F64.

Abbreviation float := F64.float.

(** ** Python scalars and exceptions *)

Inductive value : Type :=
| VInt (n : Z)
| VFloat (x : float)
| VStr (s : string).

Inductive exn : Type :=
| KeyError (key : string)
| TypeError
| ZeroDivisionError
| OverflowError
| ValueError.

Inductive result (A : Type) : Type :=
| Ok (a : A)
| Raise (e : exn).

Arguments Ok {A} a.
Arguments Raise {A} e.

Definition bind {A B : Type} (m : result A) (k : A -> result B) : result B :=
  match m with
  | Ok a => k a
  | Raise e => Raise e
  end.

Notation "x <- m ;; k" := (bind m (fun x => k))
  (at level 61, m at next level, right associativity).

(** [[f(x) for x in l]], stopping at the first exception. *)
Fixpoint mapM {A B : Type} (f : A -> result B) (l : list A) : result (list B) :=
  match l with
  | [] => Ok []
  | a :: l' =>
      b <- f a;;
      bs <- mapM f l';;
      Ok (b :: bs)
  end.

(** [for x in l: acc = f(acc, x)], stopping at the first exception. *)
Fixpoint foldM {A B : Type} (f : A -> B -> result A) (l : list B) (acc : A)
  : result A :=
  match l with
  | [] => Ok acc
  | b :: l' =>
      acc' <- f acc b;;
      foldM f l' acc'
  end.

(** ** Python operators on scalars *)

Module Py.

(** [np.nan], the marker of a missing value. *)
Definition nan : value := VFloat F64.nan.

(** [x > c] for an integer literal [c].  Python compares an integer with
    a float exactly; the literals of the notebook (0, 120 and 240) convert
    to binary64 without rounding.  A string against a number raises. *)
Definition gt (x : value) (c : Z) : result bool :=
  match x with
  | VInt n => Ok (c <? n)
  | VFloat f => Ok (F64.ltb (F64.of_Z c) f)
  | VStr _ => Raise TypeError
  end.

(** [x <= c] for an integer literal [c]. *)
Definition le (x : value) (c : Z) : result bool :=
  match x with
  | VInt n => Ok (n <=? c)
  | VFloat f => Ok (F64.leb f (F64.of_Z c))
  | VStr _ => Raise TypeError
  end.

(** [x == c] for an integer literal [c]: never raises, a string differs
    from every number. *)
Definition eq (x : value) (c : Z) : bool :=
  match x with
  | VInt n => n =? c
  | VFloat f => F64.eqb f (F64.of_Z c)
  | VStr _ => false
  end.

(** [x == s] for a string literal [s]. *)
Definition eq_str (x : value) (s : string) : bool :=
  match x with
  | VStr t => String.eqb t s
  | _ => false
  end.

(** [float(n)]: an integer too large for a binary64 raises. *)
Definition to_float (n : Z) : result float :=
  if F64.overflow_threshold <=? Z.abs n then Raise OverflowError
  else Ok (F64.of_Z n).

(** [x / y] on two floats. *)
Definition float_truediv (x y : float) : result value :=
  if F64.is_zero y then Raise ZeroDivisionError
  else Ok (VFloat (F64.div x y)).

(** [a / b], true division.  Two integers give the correctly rounded
    quotient, or [OverflowError] when it exceeds the binary64 range; with a
    float on either side the integer is converted first, and converts to
    zero only when it is zero. *)
Definition truediv (a b : value) : result value :=
  match a, b with
  | VInt p, VInt q =>
      if q =? 0 then Raise ZeroDivisionError
      else if F64.overflow_threshold * Z.abs q <=? Z.abs p
           then Raise OverflowError
           else Ok (VFloat (F64.div (F64.exact p) (F64.exact q)))
  | VInt p, VFloat y => x <- to_float p;; float_truediv x y
  | VFloat x, VInt q =>
      if q =? 0 then Raise ZeroDivisionError
      else y <- to_float q;; Ok (VFloat (F64.div x y))
  | VFloat x, VFloat y => float_truediv x y
  | VStr _, _ | _, VStr _ => Raise TypeError
  end.

End Py.

(** ** numpy scalars

    The dtypes of the columns of a table of numbers and text: 64-bit
    integers, signed and unsigned, binary64 floats, and Python objects. *)

Inductive dtype : Type :=
| Int64
| UInt64
| Float64
| Object.

Module Np.

(** [np.float64(x)] of a number. *)
Definition float64 (x : value) : result float :=
  match x with
  | VInt n => Ok (F64.of_Z n)
  | VFloat f => Ok f
  | VStr _ => Raise TypeError
  end.

(** [a / b] on [np.int64] and [np.float64] scalars: both sides as
    binary64, then the IEEE division.  It raises on no number: a division by
    zero gives an infinity or [nan]. *)
Definition truediv (a b : value) : result value :=
  x <- float64 a;;
  y <- float64 b;;
  Ok (VFloat (F64.div x y)).

End Np.

(** ** Tables

    A [Series] is a column of cells.  A [DataFrame] has an index of [index]
    rows and an ordered list of named columns; the order is the order of
    the columns in the written CSV file. *)

Definition Series : Type := list value.

Record DataFrame : Type := mkDataFrame {
  index : nat;
  columns : list (string * Series)
}.

(** One row of a table, as [df.apply(..., axis=1)] hands it to its
    function: a series of one dtype, the cells of the row under their
    column names.  In a row of dtype [Int64], [UInt64] or [Float64] the cells
    are numpy scalars, in a row of dtype [Object] they are Python objects. *)
Record Row : Type := mkRow {
  row_dtype : dtype;
  row_cells : list (string * value)
}.

Module Pd.

Fixpoint lookup {A : Type} (key : string) (l : list (string * A)) : option A :=
  match l with
  | [] => None
  | (k, a) :: l' => if String.eqb k key then Some a else lookup key l'
  end.

(** [df[key]] and [row[key]]: a missing key raises [KeyError]. *)
Definition getitem {A : Type} (l : list (string * A)) (key : string) : result A :=
  match lookup key l with
  | Some a => Ok a
  | None => Raise (KeyError key)
  end.

Definition column_names (df : DataFrame) : list string :=
  map fst (columns df).

Definition has_column (df : DataFrame) (key : string) : bool :=
  existsb (String.eqb key) (column_names df).

(** [df[key] = s]: a column of that name is overwritten where it stands,
    a new name is appended after the last column.  The notebook assigns
    series computed from the table itself, which are as long as its index;
    a column of another length cannot be stored and raises [ValueError]. *)
Definition setitem (df : DataFrame) (key : string) (s : Series) : result DataFrame :=
  if negb (Nat.eqb (List.length s) (index df)) then Raise ValueError
  else if has_column df key
       then Ok (mkDataFrame (index df)
                  (map (fun c : string * Series =>
                          if String.eqb (fst c) key then (key, s) else c)
                       (columns df)))
       else Ok (mkDataFrame (index df) (columns df ++ [(key, s)])).

(** An integer from [lo] to below [hi]; a float. *)
Definition is_integer (lo hi : Z) (x : value) : bool :=
  match x with
  | VInt n => (lo <=? n) && (n <? hi)
  | _ => false
  end.

Definition is_float (x : value) : bool :=
  match x with
  | VFloat _ => true
  | _ => false
  end.

(** The dtype of a column, as pandas infers it from the cells: integers
    that all fit 64 bits signed make an [Int64] column, integers from 0 on
    that all fit 64 bits unsigned a [UInt64] column, floats a [Float64]
    column; a column that holds text, a larger integer, or integers among
    floats holds Python objects. *)
Definition dtype_of (s : Series) : dtype :=
  if forallb (is_integer (-9223372036854775808) 9223372036854775808) s then Int64
  else if forallb (is_integer 0 18446744073709551616) s then UInt64
  else if forallb is_float s then Float64
  else Object.

(** [np.promote_types] on these dtypes: signed and unsigned integers
    meet in [Float64], a number and an object in [Object]. *)
Definition promote (a b : dtype) : dtype :=
  match a, b with
  | Object, _ | _, Object => Object
  | Float64, _ | _, Float64 => Float64
  | Int64, Int64 => Int64
  | UInt64, UInt64 => UInt64
  | Int64, UInt64 | UInt64, Int64 => Float64
  end.

(** [np.result_type] of the dtypes of some columns; an array of no column
    is a [Float64] array. *)
Definition result_type (l : list dtype) : dtype :=
  match l with
  | [] => Float64
  | d :: l' => fold_right promote d l'
  end.

Definition dtypes (df : DataFrame) : list dtype :=
  map (fun c : string * Series => dtype_of (snd c)) (columns df).

(** The dtype of [df.values]: the common dtype of the columns. *)
Definition common_dtype (df : DataFrame) : dtype :=
  result_type (dtypes df).

(** A cell of [df.values]: under [Float64] an integer is converted, under
    the other dtypes the cell is as the column holds it. *)
Definition astype (dt : dtype) (x : value) : value :=
  match dt, x with
  | Float64, VInt n => VFloat (F64.of_Z n)
  | _, _ => x
  end.

(** Row [i] of the table with its cells in the dtype [dt]. *)
Definition row_as (dt : dtype) (df : DataFrame) (i : nat) : Row :=
  mkRow dt
    (map (fun c : string * Series => (fst c, astype dt (nth i (snd c) Py.nan)))
         (columns df)).

(** Row [i] as [df.apply(..., axis=1)] takes it from [df.values] (and
    as [df.iloc[i]] gives it): in the common dtype of the table. *)
Definition iloc (df : DataFrame) (i : nat) : Row :=
  row_as (common_dtype df) df i.

(** [df.drop(columns=key)] *)
Definition drop (df : DataFrame) (key : string) : DataFrame :=
  mkDataFrame (index df)
    (filter (fun c : string * Series => negb (String.eqb (fst c) key)) (columns df)).

(** [a / b] between two cells of a row of dtype [dt]: Python's division on
    the objects of an object row, numpy's on the scalars of a number row. *)
Definition truediv (dt : dtype) (a b : value) : result value :=
  match dt with
  | Object => Py.truediv a b
  | Int64 | UInt64 | Float64 => Np.truediv a b
  end.

(** [p / m] as a row of dtype [dt] computes it from two cells of the
    table. *)
Definition quotient (dt : dtype) (p m : value) : result value :=
  truediv dt (astype dt p) (astype dt m).

Definition rows (df : DataFrame) : list Row :=
  map (iloc df) (seq 0 (index df)).

(** [s.apply(f)]: [f] on every cell, in order. *)
Definition series_apply (f : value -> result value) (s : Series) : result Series :=
  mapM f s.

(** What [df.apply(f, axis=1)] returns for a function [f] that returns
    scalars: a series, or on a table without rows or columns possibly a copy
    of the table. *)
Inductive applied : Type :=
| AsSeries (s : Series)
| AsFrame (df : DataFrame).

(** The row pandas tries [f] on when there is no row to apply it to:
    [Series(index=df.columns, dtype=np.float64)], all [nan]. *)
Definition probe_row (df : DataFrame) : Row :=
  mkRow Float64 (map (fun c : string * Series => (fst c, Py.nan)) (columns df)).

(** [apply_empty_result]: when [f] raises on the probe row the exception
    is dropped and a copy of the table returned; otherwise the result is a
    series over the index, empty when the index is, and else of [f] on an
    empty row. *)
Definition apply_empty_result (f : Row -> result value) (df : DataFrame)
  : result applied :=
  match f (probe_row df) with
  | Raise _ => Ok (AsFrame df)
  | Ok _ =>
      if Nat.eqb (index df) 0 then Ok (AsSeries [])
      else r <- f (mkRow Float64 []);;
           Ok (AsSeries (repeat r (index df)))
  end.

(** [df.apply(f, axis=1)]: [f] on every row, in order; a table without
    rows or without columns goes through [apply_empty_result]. *)
Definition frame_apply (f : Row -> result value) (df : DataFrame) : result applied :=
  if Nat.eqb (index df) 0 || Nat.eqb (List.length (columns df)) 0
  then apply_empty_result f df
  else s <- mapM f (rows df);;
       Ok (AsSeries s).

(** The column [df[key] = v] stores for what [apply] returned: the series,
    or the only column of a table; a table of no or of several columns
    raises [ValueError]. *)
Definition column_of_value (v : applied) : result Series :=
  match v with
  | AsSeries s => Ok s
  | AsFrame d =>
      match columns d with
      | [(_, s)] => Ok s
      | _ => Raise ValueError
      end
  end.

(** [s.replace(to_replace, new)] for floats: a cell equal to one of
    [to_replace] becomes [new]; integers and strings equal no infinity
    and stay. *)
Definition replace_cell (to_replace : list float) (new : float) (v : value) : value :=
  match v with
  | VFloat x => if existsb (F64.eqb x) to_replace then VFloat new else v
  | _ => v
  end.

Definition replace (to_replace : list float) (new : float) (s : Series) : Series :=
  map (replace_cell to_replace new) s.

(** [(s == lit).astype(int)] *)
Definition eq_astype_int (s : Series) (lit : string) : Series :=
  map (fun v => VInt (Z.b2z (Py.eq_str v lit))) s.

(** [df.at[i, key]]: the cell of row [i] in column [key], as the column
    holds it. *)
Definition at_ (df : DataFrame) (i : nat) (key : string) : result value :=
  s <- getitem (columns df) key;;
  Ok (nth i s Py.nan).

End Pd.

(** ** The notebook *)

(** [lambda x: 1 if x > 0 else 0], the function of the [has_review] and
    [active_listing] cells. *)
Definition flag_positive (x : value) : result value :=
  b <- Py.gt x 0;;
  Ok (if b then VInt 1 else VInt 0).

(** [lambda row: row['price'] / row['minimum_nights']
                 if row['minimum_nights'] > 0 else np.nan] *)
Definition price_ratio (row : Row) : result value :=
  m <- Pd.getitem (row_cells row) "minimum_nights";;
  b <- Py.gt m 0;;
  if b then
    p <- Pd.getitem (row_cells row) "price";;
    m' <- Pd.getitem (row_cells row) "minimum_nights";;
    Pd.truediv (row_dtype row) p m'
  else Ok Py.nan.

Definition categorize_availability (x : value) : result value :=
  if Py.eq x 0 then Ok (VStr "Not Available")
  else
    b <- Py.le x 120;;
    if b then Ok (VStr "Low")
    else
      b' <- Py.le x 240;;
      if b' then Ok (VStr "Medium")
      else Ok (VStr "High").

(** A column assignment [df[name] = expr]: the name and the expression,
    evaluated on the table as it is when the statement runs. *)
Definition assignment : Type := (string * (DataFrame -> result Series))%type.

Definition assign_has_review : assignment :=
  ("has_review",
   fun df => s <- Pd.getitem (columns df) "number_of_reviews";;
             Pd.series_apply flag_positive s).

Definition assign_price_per_night : assignment :=
  ("price_per_night",
   fun df => v <- Pd.frame_apply price_ratio df;;
             Pd.column_of_value v).

Definition assign_price_per_night_finite : assignment :=
  ("price_per_night",
   fun df => s <- Pd.getitem (columns df) "price_per_night";;
             Ok (Pd.replace [F64.inf; F64.neg_inf] F64.nan s)).

Definition assign_active_listing : assignment :=
  ("active_listing",
   fun df => s <- Pd.getitem (columns df) "availability_365";;
             Pd.series_apply flag_positive s).

Definition assign_seasonal_availability : assignment :=
  ("seasonal_availability",
   fun df => s <- Pd.getitem (columns df) "availability_365";;
             Pd.series_apply categorize_availability s).

Definition assign_is_entire_home : assignment :=
  ("is_entire_home",
   fun df => s <- Pd.getitem (columns df) "room_type";;
             Ok (Pd.eq_astype_int s "Entire home/apt")).

(** The code cells of the notebook that assign columns, in order; the
    [price_per_night] cell assigns its column twice. *)
Definition cells : list (list assignment) :=
  [ [ assign_has_review ];
    [ assign_price_per_night; assign_price_per_night_finite ];
    [ assign_active_listing ];
    [ assign_seasonal_availability ];
    [ assign_is_entire_home ] ].

Definition assignments : list assignment := List.concat cells.

Definition run (df : DataFrame) (a : assignment) : result DataFrame :=
  s <- snd a df;;
  Pd.setitem df (fst a) s.

(** From the table [read_csv] returned to the table handed to [to_csv]. *)
Definition pipeline (df : DataFrame) : result DataFrame :=
  foldM run assignments df.

(** The columns the notebook reads and the columns it assigns. *)
Definition source_columns : list string :=
  [ "number_of_reviews"; "price"; "minimum_nights"; "availability_365"; "room_type" ].

Definition derived_columns : list string :=
  nodup string_dec (map fst assignments).

(** The dtype of the rows the [price_per_night] cell maps over: the
    common dtype of the table at that point, of the [Int64] column
    [has_review] just assigned and the other columns of the table read. *)
Definition rows_dtype (df : DataFrame) : dtype :=
  Pd.result_type (Int64 :: Pd.dtypes (Pd.drop df "has_review")).

(** The rows of the table read as the [price_per_night] cell sees them. *)
Definition ratio_rows (df : DataFrame) : list Row :=
  map (Pd.row_as (rows_dtype df) df) (seq 0 (index df)).

(** ** A small table *)

Definition listings : DataFrame :=
  mkDataFrame 4
    [ ("id", [VInt 2539; VInt 2595; VInt 3647; VInt 3831]);
      ("room_type", [VStr "Private room"; VStr "Entire home/apt";
                     VStr "Private room"; VStr "Entire home/apt"]);
      ("price", [VInt 149; VInt 225; VInt 150; VInt 89]);
      ("minimum_nights", [VInt 1; VInt 3; VInt 0; VInt 2]);
      ("number_of_reviews", [VInt 9; VInt 45; VInt 0; VInt 270]);
      ("availability_365", [VInt 365; VInt 121; VInt 0; VInt 194]) ].

(** The table the notebook writes for [listings]. *)
Definition listings_featured : DataFrame :=
  mkDataFrame 4
    (columns listings ++
     [ ("has_review", [VInt 1; VInt 1; VInt 0; VInt 1]);
       ("price_per_night",
        [VFloat (F64.of_Z 149); VFloat (F64.of_Z 75); VFloat F64.nan;
         VFloat (S754_finite false 6262818231812096 (-47))]);
       ("active_listing", [VInt 1; VInt 1; VInt 0; VInt 1]);
       ("seasonal_availability",
        [VStr "High"; VStr "Medium"; VStr "Not Available"; VStr "Medium"]);
       ("is_entire_home", [VInt 0; VInt 1; VInt 0; VInt 1]) ]).

(** A table that was through the notebook before: it holds a column named
    [has_review] already. *)
Definition relisted : DataFrame :=
  mkDataFrame 2
    [ ("has_review", [VInt 0; VInt 0]);
      ("room_type", [VStr "Shared room"; VStr "Entire home/apt"]);
      ("price", [VInt 60; VInt 89]);
      ("minimum_nights", [VInt 30; VInt 2]);
      ("number_of_reviews", [VInt 0; VInt 270]);
      ("availability_365", [VInt 88; VInt 194]) ].

Definition relisted_featured : DataFrame :=
  mkDataFrame 2
    [ ("has_review", [VInt 0; VInt 1]);
      ("room_type", [VStr "Shared room"; VStr "Entire home/apt"]);
      ("price", [VInt 60; VInt 89]);
      ("minimum_nights", [VInt 30; VInt 2]);
      ("number_of_reviews", [VInt 0; VInt 270]);
      ("availability_365", [VInt 88; VInt 194]);
      ("price_per_night",
       [VFloat (F64.of_Z 2); VFloat (S754_finite false 6262818231812096 (-47))]);
      ("active_listing", [VInt 1; VInt 1]);
      ("seasonal_availability", [VStr "Low"; VStr "Medium"]);
      ("is_entire_home", [VInt 0; VInt 1]) ].

(** A row whose quotient overflows: the largest finite binary64 number
    over a minimum stay of half a night. *)
Definition overflowing : DataFrame :=
  mkDataFrame 1
    [ ("room_type", [VStr "Private room"]);
      ("price", [VFloat (S754_finite false 9007199254740991 971)]);
      ("minimum_nights", [VFloat (S754_finite false 4503599627370496 (-53))]);
      ("number_of_reviews", [VInt 1]);
      ("availability_365", [VInt 1]) ].

(** A table of numbers only, the room type as a code, with a price above
    2^53; and the same table with a second row whose room type is text. *)
Definition coded : DataFrame :=
  mkDataFrame 1
    [ ("room_type", [VInt 1]);
      ("price", [VInt 9007199254740993]);
      ("minimum_nights", [VInt 3]);
      ("number_of_reviews", [VInt 5]);
      ("availability_365", [VInt 100]) ].

Definition coded_featured : DataFrame :=
  mkDataFrame 1
    (columns coded ++
     [ ("has_review", [VInt 1]);
       ("price_per_night", [VFloat (S754_finite false 6004799503160661 (-1))]);
       ("active_listing", [VInt 1]);
       ("seasonal_availability", [VStr "Low"]);
       ("is_entire_home", [VInt 0]) ]).



(** ** What the statements below say about a cell

    The order of Python on numbers, as propositions: on integers the order
    of [Z], on floats the IEEE comparison (false on [nan]).  A string is
    neither. *)

Definition gt_zero (x : value) : Prop :=
  match x with
  | VInt n => 0 < n
  | VFloat f => F64.ltb (F64.of_Z 0) f = true
  | VStr _ => False
  end.


Definition ge_zero (x : value) : Prop :=
  match x with
  | VInt n => 0 <= n
  | VFloat f => F64.leb (F64.of_Z 0) f = true
  | VStr _ => False
  end.

Definition eq_zero (x : value) : Prop :=
  match x with
  | VInt n => n = 0
  | VFloat f => F64.eqb f (F64.of_Z 0) = true
  | VStr _ => False
  end.

(** [x] lies in the interval from [lo] (excluded) to [hi] (included). *)
Definition within (lo hi : Z) (x : value) : Prop :=
  match x with
  | VInt n => lo < n <= hi
  | VFloat f => F64.ltb (F64.of_Z lo) f = true /\ F64.leb f (F64.of_Z hi) = true
  | VStr _ => False
  end.

(** [x] lies in the interval from [lo] to [hi], both included. *)
Definition between (lo hi : Z) (x : value) : Prop :=
  match x with
  | VInt n => lo <= n <= hi
  | VFloat f => F64.leb (F64.of_Z lo) f = true /\ F64.leb f (F64.of_Z hi) = true
  | VStr _ => False
  end.

(** A table as [read_csv] builds it: every column is as long as the index
    and no two columns share a name. *)
Record well_formed (df : DataFrame) : Prop := {
  wf_length : Forall (fun c : string * Series => List.length (snd c) = index df) (columns df);
  wf_names : NoDup (Pd.column_names df)
}.

(** The cells the notebook computes on, as [read_csv] types them: a
    number is an integer or a float, an integer is a 64-bit one. *)
Definition numeric (x : value) : Prop :=
  match x with
  | VStr _ => False
  | _ => True
  end.

Definition machine_number (x : value) : Prop :=
  match x with
  | VInt n => -9223372036854775808 <= n < 9223372036854775808
  | VFloat _ => True
  | VStr _ => False
  end.

Definition column_of (df : DataFrame) (key : string) (P : value -> Prop) : Prop :=
  exists s, Pd.lookup key (columns df) = Some s /\ Forall P s.

Record well_typed (df : DataFrame) : Prop := {
  wt_reviews : column_of df "number_of_reviews" numeric;
  wt_price : column_of df "price" machine_number;
  wt_nights : column_of df "minimum_nights" machine_number;
  wt_availability : column_of df "availability_365" numeric;
  wt_room : column_of df "room_type" (fun _ => True)
}.

(** A number or an infinity of sign [sx]. *)
Definition strictly_signed (sx : bool) (f : float) : Prop :=
  match f with
  | S754_finite s _ _ | S754_infinity s => s = sx
  | S754_zero _ | S754_nan => False
  end.

(** The sign bit of a float is clear; [nan] has none. *)
Definition sign_clear (f : float) : Prop :=
  match f with
  | S754_zero s | S754_infinity s | S754_finite s _ _ => s = false
  | S754_nan => True
  end.

(** A float that is not below zero: a zero of either sign, a number or
    infinity with a clear sign bit, or [nan]. *)
Definition not_negative (f : float) : Prop :=
  match f with
  | S754_zero _ | S754_nan => True
  | S754_infinity s | S754_finite s _ _ => s = false
  end.

(** A table without a [price] column in which no stay is positive. *)
Definition unpriced : DataFrame :=
  mkDataFrame 1
    [ ("room_type", [VStr "Private room"]);
      ("minimum_nights", [VInt 0]);
      ("number_of_reviews", [VInt 2]);
      ("availability_365", [VInt 30]) ].

(** Two tables without rows, as [read_csv] builds them from a file that
    holds a header only: with the five source columns, and without
    [minimum_nights]. *)
Definition header_only : DataFrame :=
  mkDataFrame 0
    [ ("room_type", []); ("price", []); ("minimum_nights", []);
      ("number_of_reviews", []); ("availability_365", []) ].

Definition header_only_featured : DataFrame :=
  mkDataFrame 0
    (columns header_only ++
     [ ("has_review", []); ("price_per_night", []); ("active_listing", []);
       ("seasonal_availability", []); ("is_entire_home", []) ]).

Definition header_without_nights : DataFrame :=
  mkDataFrame 0
    [ ("room_type", []); ("price", []);
      ("number_of_reviews", []); ("availability_365", []) ].

(** The four labels in the order of the availability they stand for. *)
Definition label_rank (label : string) : nat :=
  if String.eqb label "Not Available" then 0
  else if String.eqb label "Low" then 1
  else if String.eqb label "Medium" then 2
  else 3.

(** What the notebook can raise on a table [df]: the [KeyError] of a
    source column that [df] lacks, a [TypeError], an [OverflowError]. *)
Definition expected_error (df : DataFrame) (e : exn) : Prop :=
  (exists key, e = KeyError key /\ In key source_columns /\
               ~ In key (Pd.column_names df)) \/
  e = TypeError \/ e = OverflowError.

(** A table with a string among its review counts. *)
Definition mistyped : DataFrame :=
  mkDataFrame 2
    [ ("room_type", [VStr "Private room"; VStr "Shared room"]);
      ("price", [VInt 70; VInt 35]);
      ("minimum_nights", [VInt 1; VInt 1]);
      ("number_of_reviews", [VInt 12; VStr "none"]);
      ("availability_365", [VInt 10; VInt 300]) ].

(** A table with missing values: its number columns are float columns and
    the missing cells are [nan]. *)
Definition gaps : DataFrame :=
  mkDataFrame 2
    [ ("room_type", [VStr "Private room"; VStr "Private room"]);
      ("price", [VFloat (F64.of_Z 100); VFloat (F64.of_Z 80)]);
      ("minimum_nights", [VInt 1; VInt 2]);
      ("number_of_reviews", [VFloat F64.nan; VFloat (F64.of_Z 3)]);
      ("availability_365", [VFloat F64.nan; VFloat (F64.of_Z 200)]) ].

Definition gaps_featured : DataFrame :=
  mkDataFrame 2
    (columns gaps ++
     [ ("has_review", [VInt 0; VInt 1]);
       ("price_per_night", [VFloat (F64.of_Z 100); VFloat (F64.of_Z 40)]);
       ("active_listing", [VInt 0; VInt 1]);
       ("seasonal_availability", [VStr "High"; VStr "Medium"]);
       ("is_entire_home", [VInt 0; VInt 0]) ]).

(** ** The error monad *)

Lemma bind_Ok {A B : Type} (m : result A) (k : A -> result B) (b : B) :
  (x <- m;; k x) = Ok b -> exists a, m = Ok a /\ k a = Ok b.
Proof.
  destruct m as [a|e]; simpl; intros H.
  - now exists a.
  - discriminate.
Qed.

Ltac bind_inv H :=
  let a := fresh "a" in
  let Ha := fresh "H" a in
  apply bind_Ok in H; destruct H as (a & Ha & H).

Lemma mapM_length {A B : Type} (f : A -> result B) (l : list A) (l' : list B) :
  mapM f l = Ok l' -> List.length l' = List.length l.
Proof.
  revert l'; induction l as [|a l IH]; simpl; intros l' H.
  - now inversion H.
  - bind_inv H. bind_inv H. inversion H; subst; simpl.
    f_equal. now apply IH.
Qed.

Lemma mapM_nth {A B : Type} (f : A -> result B) (l : list A) (l' : list B)
      (da : A) (db : B) (i : nat) :
  mapM f l = Ok l' -> (i < List.length l)%nat ->
  f (nth i l da) = Ok (nth i l' db).
Proof.
  revert l' i; induction l as [|a l IH]; simpl; intros l' i H Hi.
  - lia.
  - bind_inv H. bind_inv H. inversion H; subst.
    destruct i as [|i]; simpl; [assumption|].
    apply IH; [assumption|lia].
Qed.

Lemma mapM_ext_in {A B : Type} (f g : A -> result B) (l : list A) :
  (forall a, In a l -> f a = g a) -> mapM f l = mapM g l.
Proof.
  induction l as [|a l IH]; simpl; intros H; [reflexivity|].
  rewrite (H a) by now left.
  rewrite IH by (intros; apply H; now right).
  reflexivity.
Qed.

Lemma mapM_total {A B : Type} (f : A -> result B) (l : list A) :
  (forall a, In a l -> exists b, f a = Ok b) -> exists l', mapM f l = Ok l'.
Proof.
  induction l as [|a l IH]; simpl; intros H.
  - now exists [].
  - destruct (H a) as [b Hb]; [now left|].
    destruct IH as [l' Hl']; [intros; apply H; now right|].
    exists (b :: l'). now rewrite Hb, Hl'.
Qed.

(** ** Columns and rows *)

Lemma lookup_map_snd {A B : Type} (g : A -> B) (key : string) (l : list (string * A)) :
  Pd.lookup key (map (fun c => (fst c, g (snd c))) l) = option_map g (Pd.lookup key l).
Proof.
  induction l as [|[k a] l IH]; simpl; [reflexivity|].
  destruct (String.eqb k key); [reflexivity|assumption].
Qed.

Lemma lookup_app_one {A : Type} (key k : string) (a : A) (l : list (string * A)) :
  Pd.lookup key (l ++ [(k, a)]) =
  match Pd.lookup key l with
  | Some b => Some b
  | None => if String.eqb k key then Some a else None
  end.
Proof.
  induction l as [|[k' b] l IH]; simpl; [reflexivity|].
  destruct (String.eqb k' key); [reflexivity|assumption].
Qed.

Lemma lookup_overwrite {A : Type} (key k : string) (a : A) (l : list (string * A)) :
  Pd.lookup key (map (fun c : string * A => if String.eqb (fst c) k then (k, a) else c) l) =
  if String.eqb k key
  then match Pd.lookup key l with Some _ => Some a | None => None end
  else Pd.lookup key l.
Proof.
  induction l as [|[k' b] l IH]; simpl.
  - now destruct (String.eqb k key).
  - destruct (String.eqb_spec k' k) as [->|Hk]; simpl.
    + destruct (String.eqb k key); [reflexivity|assumption].
    + destruct (String.eqb_spec k' key) as [->|Hkey].
      * destruct (String.eqb_spec k key) as [->|_]; [congruence|reflexivity].
      * assumption.
Qed.

Lemma lookup_None {A : Type} (key : string) (l : list (string * A)) :
  Pd.lookup key l = None <-> ~ In key (map fst l).
Proof.
  induction l as [|[k a] l IH]; simpl.
  - tauto.
  - destruct (String.eqb_spec k key) as [->|Hk].
    + split; [discriminate|]. intros H; exfalso; apply H; now left.
    + rewrite IH. tauto.
Qed.

Lemma has_column_lookup (df : DataFrame) (key : string) :
  Pd.has_column df key = match Pd.lookup key (columns df) with Some _ => true | None => false end.
Proof.
  unfold Pd.has_column, Pd.column_names.
  induction (columns df) as [|[k a] l IH]; simpl; [reflexivity|].
  rewrite (String.eqb_sym key k).
  destruct (String.eqb k key); [reflexivity|assumption].
Qed.

Lemma getitem_Ok {A : Type} (l : list (string * A)) (key : string) (a : A) :
  Pd.getitem l key = Ok a <-> Pd.lookup key l = Some a.
Proof.
  unfold Pd.getitem. destruct (Pd.lookup key l); split; congruence.
Qed.

Lemma setitem_inv (df df' : DataFrame) (k : string) (s : Series) :
  Pd.setitem df k s = Ok df' ->
  List.length s = index df /\ index df' = index df /\
  forall key, Pd.lookup key (columns df') =
              if String.eqb k key then Some s else Pd.lookup key (columns df).
Proof.
  unfold Pd.setitem. destruct (Nat.eqb_spec (List.length s) (index df)) as [Hlen|]; simpl;
    [|discriminate].
  rewrite has_column_lookup.
  destruct (Pd.lookup k (columns df)) as [old|] eqn:Hk; intros H; inversion H; subst; clear H;
    simpl; repeat split; try assumption; intros key.
  - rewrite lookup_overwrite.
    destruct (String.eqb_spec k key) as [<-|]; [now rewrite Hk|reflexivity].
  - rewrite lookup_app_one.
    destruct (String.eqb_spec k key) as [<-|]; [now rewrite Hk|].
    now destruct (Pd.lookup key (columns df)).
Qed.

Lemma setitem_fresh (df df' : DataFrame) (k : string) (s : Series) :
  ~ In k (Pd.column_names df) -> Pd.setitem df k s = Ok df' ->
  columns df' = columns df ++ [(k, s)].
Proof.
  unfold Pd.setitem. intros Hk.
  destruct (negb _); [discriminate|].
  rewrite has_column_lookup.
  apply lookup_None in Hk. rewrite Hk.
  intros H; now inversion H.
Qed.

Lemma setitem_names (df df' : DataFrame) (k : string) (s : Series) :
  In k (Pd.column_names df) -> Pd.setitem df k s = Ok df' ->
  Pd.column_names df' = Pd.column_names df.
Proof.
  unfold Pd.setitem. intros Hk.
  destruct (negb _); [discriminate|].
  rewrite has_column_lookup.
  destruct (Pd.lookup k (columns df)) eqn:Hl.
  - intros H; inversion H; subst; clear H. unfold Pd.column_names; simpl.
    rewrite map_map. apply map_ext_in. intros [k' c] _; simpl.
    destruct (String.eqb_spec k' k); simpl; congruence.
  - apply lookup_None in Hl. contradiction.
Qed.

Lemma setitem_well_formed (df df' : DataFrame) (k : string) (s : Series) :
  well_formed df -> Pd.setitem df k s = Ok df' -> well_formed df'.
Proof.
  intros [Hlen Hnames] H.
  destruct (in_dec string_dec k (Pd.column_names df)) as [Hin|Hout].
  - pose proof (setitem_names _ _ _ _ Hin H) as Hn.
    destruct (setitem_inv _ _ _ _ H) as (Hs & Hidx & _).
    split; [|now rewrite Hn].
    revert H. unfold Pd.setitem. destruct (negb _); [discriminate|].
    destruct (Pd.has_column df k); intros H; inversion H; subst; clear H; simpl in *.
    + apply Forall_map. eapply Forall_impl; [|exact Hlen].
      intros [k' c] Hc; simpl in *. now destruct (String.eqb k' k).
    + apply Forall_app; split; [assumption|]. now constructor.
  - pose proof (setitem_fresh _ _ _ _ Hout H) as Hc.
    destruct (setitem_inv _ _ _ _ H) as (Hs & Hidx & _).
    split.
    + rewrite Hc, Hidx. apply Forall_app; split; [assumption|]. now constructor.
    + unfold Pd.column_names in *. rewrite Hc, map_app; simpl.
      apply NoDup_app; [assumption|constructor; [tauto|constructor]|].
      intros x Hx [<-|[]]. contradiction.
Qed.

(** A cell of a row is the cell of the column, in the dtype of the row. *)
Lemma getitem_row_as (dt : dtype) (df : DataFrame) (i : nat) (key : string) :
  Pd.getitem (row_cells (Pd.row_as dt df i)) key =
  (s <- Pd.getitem (columns df) key;; Ok (Pd.astype dt (nth i s Py.nan))).
Proof.
  unfold Pd.getitem, Pd.row_as; cbn [row_cells].
  rewrite (lookup_map_snd (fun s : Series => Pd.astype dt (nth i s Py.nan))).
  now destruct (Pd.lookup key (columns df)).
Qed.

Lemma getitem_row_at (dt : dtype) (df : DataFrame) (i : nat) (key : string) :
  Pd.getitem (row_cells (Pd.row_as dt df i)) key =
  (x <- Pd.at_ df i key;; Ok (Pd.astype dt x)).
Proof.
  rewrite getitem_row_as. unfold Pd.at_.
  now destruct (Pd.getitem (columns df) key).
Qed.

Lemma at_column (df : DataFrame) (i : nat) (key : string) (s : Series) :
  Pd.lookup key (columns df) = Some s -> Pd.at_ df i key = Ok (nth i s Py.nan).
Proof.
  intros H. unfold Pd.at_.
  apply getitem_Ok in H. now rewrite H.
Qed.

Lemma rows_nth (df : DataFrame) (i : nat) (d : Row) :
  (i < index df)%nat -> nth i (Pd.rows df) d = Pd.iloc df i.
Proof.
  intros Hi. unfold Pd.rows.
  rewrite (nth_indep _ d (Pd.iloc df 0)) by now rewrite length_map, length_seq.
  rewrite (map_nth (Pd.iloc df) (seq 0 (index df)) 0%nat i).
  now rewrite seq_nth.
Qed.

Lemma rows_length (df : DataFrame) : List.length (Pd.rows df) = index df.
Proof. unfold Pd.rows. now rewrite length_map, length_seq. Qed.

Lemma column_length (df : DataFrame) (key : string) (s : Series) :
  well_formed df -> Pd.lookup key (columns df) = Some s -> List.length s = index df.
Proof.
  intros [Hlen _]. induction Hlen as [|[k c] l Hc _ IH]; simpl; [discriminate|].
  destruct (String.eqb k key); [|assumption].
  intros H; inversion H; subst. exact Hc.
Qed.

(** ** The functions of the notebook *)

(** [price_ratio] reads the dtype of its row and two of its cells, and
    nothing else. *)
Lemma price_ratio_ext (r1 r2 : Row) :
  row_dtype r1 = row_dtype r2 ->
  Pd.getitem (row_cells r1) "minimum_nights" = Pd.getitem (row_cells r2) "minimum_nights" ->
  Pd.getitem (row_cells r1) "price" = Pd.getitem (row_cells r2) "price" ->
  price_ratio r1 = price_ratio r2.
Proof.
  intros Hd Hm Hp. unfold price_ratio. now rewrite Hd, Hm, Hp.
Qed.

Lemma truediv_float (a b v : value) :
  Py.truediv a b = Ok v -> exists q, v = VFloat q.
Proof.
  unfold Py.truediv, Py.to_float, Py.float_truediv.
  destruct a as [p|x|s], b as [q|y|t]; simpl; try discriminate.
  - destruct (q =? 0); [discriminate|].
    destruct (_ <=? _); [discriminate|]. intros H; inversion H; eauto.
  - destruct (_ <=? _); simpl; [discriminate|].
    destruct (F64.is_zero y); [discriminate|]. intros H; inversion H; eauto.
  - destruct (q =? 0); [discriminate|].
    destruct (_ <=? _); simpl; [discriminate|]. intros H; inversion H; eauto.
  - destruct (F64.is_zero y); [discriminate|]. intros H; inversion H; eauto.
Qed.

Lemma mapM_map {A B C : Type} (f : B -> result C) (g : A -> B) (l : list A) :
  mapM f (map g l) = mapM (fun a => f (g a)) l.
Proof.
  induction l as [|a l IH]; simpl; [reflexivity|]. now rewrite IH.
Qed.

(** Rows of one dtype from two tables that hold the same [price] and
    [minimum_nights] columns give the same ratios. *)
Lemma mapM_price_ratio_rows (dt : dtype) (df1 df2 : DataFrame) (l : list nat) :
  Pd.lookup "minimum_nights" (columns df1) = Pd.lookup "minimum_nights" (columns df2) ->
  Pd.lookup "price" (columns df1) = Pd.lookup "price" (columns df2) ->
  mapM price_ratio (map (Pd.row_as dt df1) l) = mapM price_ratio (map (Pd.row_as dt df2) l).
Proof.
  intros Hm Hp. rewrite !mapM_map. apply mapM_ext_in. intros i _.
  apply price_ratio_ext; [reflexivity| |];
    rewrite !getitem_row_as; unfold Pd.getitem; now rewrite ?Hm, ?Hp.
Qed.

(** ** The dtype of a table *)

Lemma promote_comm (a b : dtype) : Pd.promote a b = Pd.promote b a.
Proof. now destruct a, b. Qed.

Lemma promote_assoc (a b c : dtype) :
  Pd.promote a (Pd.promote b c) = Pd.promote (Pd.promote a b) c.
Proof. now destruct a, b, c. Qed.

Lemma promote_idem (a : dtype) : Pd.promote a a = a.
Proof. now destruct a. Qed.

Lemma fold_promote_base (a b : dtype) (l : list dtype) :
  fold_right Pd.promote (Pd.promote a b) l = Pd.promote a (fold_right Pd.promote b l).
Proof.
  induction l as [|c l IH]; simpl; [reflexivity|].
  now rewrite IH, !promote_assoc, (promote_comm c a).
Qed.

(** A dtype among those promoted is absorbed by the result. *)
Lemma promote_absorb (a x : dtype) (l : list dtype) :
  In a l -> Pd.promote a (fold_right Pd.promote x l) = fold_right Pd.promote x l.
Proof.
  induction l as [|b l IH]; simpl; [contradiction|]. intros [->|Hin].
  - now rewrite promote_assoc, promote_idem.
  - now rewrite promote_assoc, (promote_comm a b), <- promote_assoc, IH.
Qed.

(** The common dtype does not depend on which column comes first. *)
Lemma result_type_In (a : dtype) (l : list dtype) :
  In a l -> Pd.result_type l = fold_right Pd.promote a l.
Proof.
  destruct l as [|d l]; simpl; [contradiction|]. intros Hin.
  rewrite <- fold_promote_base, promote_comm, fold_promote_base.
  destruct Hin as [->|Hin].
  - now rewrite <- fold_promote_base, promote_idem.
  - now rewrite promote_absorb.
Qed.

Lemma flag_positive_int (x h : value) :
  flag_positive x = Ok h -> h = VInt 0 \/ h = VInt 1.
Proof.
  unfold flag_positive. intros H. bind_inv H. inversion H. destruct a; tauto.
Qed.

Lemma flags_dtype (c s : Series) :
  mapM flag_positive c = Ok s -> Pd.dtype_of s = Int64.
Proof.
  intros H. unfold Pd.dtype_of.
  enough (forallb (Pd.is_integer (-9223372036854775808) 9223372036854775808) s = true)
    as -> by reflexivity.
  revert s H. induction c as [|x c IH]; simpl; intros s H.
  - now inversion H.
  - bind_inv H. bind_inv H. inversion H; subst; clear H.
    cbn [forallb]. rewrite (IH _ Ha0).
    now destruct (flag_positive_int _ _ Ha) as [->| ->].
Qed.

Lemma filter_absent (l : list (string * Series)) (k : string) :
  ~ In k (map fst l) ->
  filter (fun c : string * Series => negb (String.eqb (fst c) k)) l = l.
Proof.
  induction l as [|[k' c] l IH]; simpl; intros Hk; [reflexivity|].
  destruct (String.eqb_spec k' k) as [->|_]; [tauto|]. simpl.
  f_equal. apply IH. tauto.
Qed.

(** Assigning a column of integers gives the table the common dtype of
    that column and its other columns. *)
Lemma setitem_int_dtype (df df' : DataFrame) (k : string) (s : Series) :
  Pd.dtype_of s = Int64 -> Pd.setitem df k s = Ok df' ->
  Pd.common_dtype df' = Pd.result_type (Int64 :: Pd.dtypes (Pd.drop df k)).
Proof.
  intros Hs. unfold Pd.setitem.
  destruct (negb _); [discriminate|].
  destruct (Pd.has_column df k) eqn:Hk; intros H; inversion H; subst; clear H;
    unfold Pd.common_dtype, Pd.dtypes, Pd.drop; cbn [columns Pd.result_type].
  - rewrite (result_type_In Int64).
    + clear Hk. induction (columns df) as [|[k' c] l IH]; simpl; [reflexivity|].
      destruct (String.eqb_spec k' k) as [->|_]; simpl.
      * now rewrite Hs, IH, <- fold_promote_base, promote_idem.
      * now rewrite IH.
    + rewrite has_column_lookup in Hk.
      induction (columns df) as [|[k' c] l IH]; simpl in *; [discriminate|].
      destruct (String.eqb_spec k' k) as [->|Hne]; simpl.
      * left. exact Hs.
      * right. now apply IH.
  - rewrite filter_absent.
    + rewrite (result_type_In Int64).
      * rewrite map_app, fold_right_app; simpl.
        now rewrite Hs, promote_idem.
      * rewrite map_app. apply in_or_app. right. left. exact Hs.
    + intros Hin. change (In k (Pd.column_names df)) in Hin.
      rewrite has_column_lookup in Hk. apply lookup_None in Hin; [assumption|].
      now destruct (Pd.lookup k (columns df)).
Qed.

(** ** The [price_per_night] column *)

Lemma lookup_probe_row (df : DataFrame) (key : string) :
  Pd.lookup key (row_cells (Pd.probe_row df)) =
  option_map (fun _ => Py.nan) (Pd.lookup key (columns df)).
Proof.
  unfold Pd.probe_row; cbn [row_cells].
  apply (lookup_map_snd (fun _ : Series => Py.nan)).
Qed.

Lemma price_ratio_minimum_nights (row : Row) (v : value) :
  price_ratio row = Ok v -> Pd.lookup "minimum_nights" (row_cells row) <> None.
Proof.
  unfold price_ratio. intros H. bind_inv H. apply getitem_Ok in Ha. congruence.
Qed.

(** What the first assignment of the [price_per_night] cell computes on a
    table that holds columns of two names: the ratios of the rows, and on a
    table without rows nothing, provided the probe row has its
    [minimum_nights]. *)
Lemma price_column_Ok (df : DataFrame) (k1 k2 : string) (s : Series) :
  k1 <> k2 ->
  Pd.lookup k1 (columns df) <> None -> Pd.lookup k2 (columns df) <> None ->
  snd assign_price_per_night df = Ok s <->
  mapM price_ratio (Pd.rows df) = Ok s /\
  (index df = 0%nat -> Pd.lookup "minimum_nights" (columns df) <> None).
Proof.
  intros Hk H1 H2. simpl. unfold Pd.frame_apply.
  assert (Hcols : (List.length (columns df) =? 0)%nat = false).
  { destruct (columns df); [now contradiction H1|reflexivity]. }
  rewrite Hcols, orb_false_r.
  destruct (Nat.eqb_spec (index df) 0) as [H0|H0].
  - unfold Pd.apply_empty_result, Pd.rows. rewrite H0, Nat.eqb_refl. simpl.
    destruct (price_ratio (Pd.probe_row df)) as [v|e] eqn:Hprobe; simpl.
    + apply price_ratio_minimum_nights in Hprobe. rewrite lookup_probe_row in Hprobe.
      split; [intros H; split; [assumption|]|tauto].
      intros _ Hnone. now rewrite Hnone in Hprobe.
    + assert (Hm : Pd.lookup "minimum_nights" (columns df) = None).
      { unfold price_ratio in Hprobe. unfold Pd.getitem in Hprobe.
        rewrite lookup_probe_row in Hprobe.
        destruct (Pd.lookup "minimum_nights" (columns df)); [discriminate|reflexivity]. }
      split; [|intros [_ H]; now contradiction (H eq_refl)].
      destruct (columns df) as [|[k c] [|? ?]]; try discriminate.
      simpl in H1, H2.
      destruct (String.eqb_spec k k1), (String.eqb_spec k k2); congruence.
  - destruct (mapM price_ratio (Pd.rows df)); simpl; split; intros H; try tauto;
      try (split; [assumption|tauto]); now destruct H.
Qed.

(** After the [has_review] cell the first assignment of the
    [price_per_night] cell computes the ratios of the rows of the table
    read, in the dtype [rows_dtype]. *)
Lemma price_column_after_flag (df df1 : DataFrame) (reviews s1 s : Series) :
  Pd.lookup "number_of_reviews" (columns df) = Some reviews ->
  mapM flag_positive reviews = Ok s1 ->
  Pd.setitem df "has_review" s1 = Ok df1 ->
  snd assign_price_per_night df1 = Ok s <->
  mapM price_ratio (ratio_rows df) = Ok s /\
  (index df = 0%nat -> Pd.lookup "minimum_nights" (columns df) <> None).
Proof.
  intros G1 E1 S1.
  destruct (setitem_inv _ _ _ _ S1) as (_ & Hidx & L).
  rewrite (price_column_Ok df1 "has_review" "number_of_reviews")
    by (rewrite ?L; simpl; congruence).
  unfold Pd.rows, Pd.iloc, ratio_rows, rows_dtype.
  rewrite (setitem_int_dtype _ _ _ _ (flags_dtype _ _ E1) S1), Hidx, L; simpl.
  rewrite (mapM_price_ratio_rows _ df1 df) by (rewrite L; reflexivity).
  reflexivity.
Qed.

(** ** The pipeline, column by column *)

Lemma run_inv (df df' : DataFrame) (a : assignment) :
  run df a = Ok df' ->
  exists s, snd a df = Ok s /\ List.length s = index df /\ index df' = index df /\
            forall key, Pd.lookup key (columns df') =
                        if String.eqb (fst a) key then Some s else Pd.lookup key (columns df).
Proof.
  unfold run. intros H. bind_inv H. exists a0. split; [assumption|].
  now apply setitem_inv.
Qed.

Lemma run_well_formed (df df' : DataFrame) (a : assignment) :
  well_formed df -> run df a = Ok df' -> well_formed df'.
Proof.
  unfold run. intros Hwf H. bind_inv H. eauto using setitem_well_formed.
Qed.

(** The columns of the written table in terms of the columns of the table
    read: every derived column is computed from source columns, and no
    other column is touched. *)
Lemma pipeline_columns (df df' : DataFrame) :
  pipeline df = Ok df' ->
  exists reviews avail rooms s_review s_price s_active s_season,
    Pd.lookup "number_of_reviews" (columns df) = Some reviews /\
    Pd.lookup "availability_365" (columns df) = Some avail /\
    Pd.lookup "room_type" (columns df) = Some rooms /\
    mapM flag_positive reviews = Ok s_review /\
    (mapM price_ratio (ratio_rows df) = Ok s_price /\
     (index df = 0%nat -> Pd.lookup "minimum_nights" (columns df) <> None)) /\
    mapM flag_positive avail = Ok s_active /\
    mapM categorize_availability avail = Ok s_season /\
    index df' = index df /\
    Pd.lookup "has_review" (columns df') = Some s_review /\
    Pd.lookup "price_per_night" (columns df') =
      Some (Pd.replace [F64.inf; F64.neg_inf] F64.nan s_price) /\
    Pd.lookup "active_listing" (columns df') = Some s_active /\
    Pd.lookup "seasonal_availability" (columns df') = Some s_season /\
    Pd.lookup "is_entire_home" (columns df') = Some (Pd.eq_astype_int rooms "Entire home/apt") /\
    forall key, ~ In key derived_columns ->
                Pd.lookup key (columns df') = Pd.lookup key (columns df).
Proof.
  unfold pipeline, assignments; simpl. intros H.
  bind_inv H. rename a into df1, Ha into H1.
  bind_inv H. rename a into df2, Ha into H2.
  bind_inv H. rename a into df3, Ha into H3.
  bind_inv H. rename a into df4, Ha into H4.
  bind_inv H. rename a into df5, Ha into H5.
  bind_inv H. rename a into df6, Ha into H6.
  inversion H; subst df6; clear H.
  pose proof H1 as S1. unfold run in S1. bind_inv S1. rename a into s1', Ha into E1'.
  apply run_inv in H1, H2, H3, H4, H5, H6.
  destruct H1 as (s1 & E1 & _ & I1 & L1), H2 as (s2 & E2 & _ & I2 & L2),
           H3 as (s3 & E3 & _ & I3 & L3), H4 as (s4 & E4 & _ & I4 & L4),
           H5 as (s5 & E5 & _ & I5 & L5), H6 as (s6 & E6 & _ & I6 & L6).
  rewrite E1 in E1'. inversion E1'; subst s1'; clear E1'.
  simpl fst in S1, L1, L2, L3, L4, L5, L6. cbn [snd assign_has_review] in E1.
  cbn [snd assign_price_per_night_finite] in E3.
  cbn [snd assign_active_listing] in E4.
  cbn [snd assign_seasonal_availability] in E5.
  cbn [snd assign_is_entire_home] in E6.
  bind_inv E1. apply getitem_Ok in Ha. rename a into reviews, Ha into G1.
  apply (price_column_after_flag df df1 reviews s1 s2 G1 E1 S1) in E2.
  bind_inv E3. apply getitem_Ok in Ha. rename a into s2', Ha into G3.
  bind_inv E4. apply getitem_Ok in Ha. rename a into avail, Ha into G4.
  bind_inv E5. apply getitem_Ok in Ha. rename a into avail', Ha into G5.
  bind_inv E6. apply getitem_Ok in Ha. rename a into rooms, Ha into G6.
  inversion E3; subst s3; clear E3. inversion E6; subst s6; clear E6.
  rewrite L2 in G3; simpl in G3. inversion G3; subst s2'; clear G3.
  rewrite L3, L2, L1 in G4; simpl in G4.
  rewrite L4, L3, L2, L1 in G5; simpl in G5.
  rewrite L5, L4, L3, L2, L1 in G6; simpl in G6.
  rewrite G4 in G5; inversion G5; subst avail'; clear G5.
  exists reviews, avail, rooms, s1, s2, s4, s5.
  repeat split; try assumption; try apply E2.
  - congruence.
  - now rewrite L6, L5, L4, L3, L2, L1.
  - now rewrite L6, L5, L4, L3.
  - now rewrite L6, L5, L4.
  - now rewrite L6, L5.
  - now rewrite L6.
  - intros key Hkey. rewrite L6, L5, L4, L3, L2, L1.
    unfold derived_columns in Hkey. simpl in Hkey.
    repeat match goal with
           | |- context [String.eqb ?k key] =>
               destruct (String.eqb_spec k key) as [<-|_]; [exfalso; apply Hkey; tauto|]
           end.
    reflexivity.
Qed.

(** ** Order of binary64 numbers *)

Lemma of_Z_0 : F64.of_Z 0 = S754_zero false.
Proof. reflexivity. Qed.

Lemma of_Z_120 : F64.of_Z 120 = S754_finite false 8444249301319680 (-46).
Proof. vm_compute. reflexivity. Qed.

Lemma of_Z_240 : F64.of_Z 240 = S754_finite false 8444249301319680 (-45).
Proof. vm_compute. reflexivity. Qed.

Lemma of_Z_365 : F64.of_Z 365 = S754_finite false 6421147906211840 (-44).
Proof. vm_compute. reflexivity. Qed.

Lemma ltb_finite (m1 m2 : positive) (e1 e2 : Z) :
  F64.ltb (S754_finite false m1 e1) (S754_finite false m2 e2) = true <->
  e1 < e2 \/ (e1 = e2 /\ Z.pos m1 < Z.pos m2).
Proof.
  unfold F64.ltb, SFltb, SFcompare.
  change (Pos.compare_cont Eq m1 m2) with (Z.pos m1 ?= Z.pos m2).
  destruct (Z.compare_spec e1 e2); [destruct (Z.compare_spec (Z.pos m1) (Z.pos m2))| |];
    split; intros; try discriminate; try reflexivity; lia.
Qed.

Lemma leb_finite (m1 m2 : positive) (e1 e2 : Z) :
  F64.leb (S754_finite false m1 e1) (S754_finite false m2 e2) = true <->
  e1 < e2 \/ (e1 = e2 /\ Z.pos m1 <= Z.pos m2).
Proof.
  unfold F64.leb, SFleb, SFcompare.
  change (Pos.compare_cont Eq m1 m2) with (Z.pos m1 ?= Z.pos m2).
  destruct (Z.compare_spec e1 e2); [destruct (Z.compare_spec (Z.pos m1) (Z.pos m2))| |];
    split; intros; try discriminate; try reflexivity; lia.
Qed.

(** ** The sign of a converted integer *)

Lemma digits2_pos_size (m : positive) : digits2_pos m = Pos.size m.
Proof. induction m; simpl; congruence. Qed.

Lemma Zdigits2_log2 (m : Z) : 0 < m -> Zdigits2 m = Z.log2 m + 1.
Proof.
  destruct m as [|p|p]; try lia. intros _. simpl. rewrite digits2_pos_size.
  destruct p; simpl; try reflexivity; rewrite Pos2Z.inj_succ; lia.
Qed.

Lemma shr_1_m (mrs : shr_record) :
  0 <= shr_m mrs -> shr_m (shr_1 mrs) = Z.div2 (shr_m mrs).
Proof.
  destruct mrs as [m r s]; simpl. destruct m as [|p|p]; [reflexivity| |lia].
  intros _. destruct p; reflexivity.
Qed.

(** Shifting a record right shifts its mantissa. *)
Lemma iter_shr_1_m (p : positive) (mrs : shr_record) :
  0 <= shr_m mrs -> shr_m (iter_pos shr_1 p mrs) = Z.shiftr (shr_m mrs) (Z.pos p).
Proof.
  revert mrs. induction p as [p IH|p IH|]; intros mrs Hm; simpl.
  - assert (H1 : 0 <= shr_m (shr_1 mrs))
      by (rewrite shr_1_m, Z.div2_spec by assumption; now apply Z.shiftr_nonneg).
    assert (H2 : 0 <= shr_m (iter_pos shr_1 p (shr_1 mrs)))
      by (rewrite IH by assumption; now apply Z.shiftr_nonneg).
    rewrite !IH, shr_1_m, Z.div2_spec, !Z.shiftr_shiftr by (assumption || lia).
    f_equal. lia.
  - assert (H2 : 0 <= shr_m (iter_pos shr_1 p mrs))
      by (rewrite IH by assumption; now apply Z.shiftr_nonneg).
    rewrite !IH, !Z.shiftr_shiftr by (assumption || lia).
    f_equal. lia.
  - rewrite shr_1_m, Z.div2_spec by assumption. reflexivity.
Qed.

Lemma shiftr_pos (m n : Z) : 0 < m -> 0 <= n <= Z.log2 m -> 0 < Z.shiftr m n.
Proof.
  intros Hm Hn. rewrite Z.shiftr_div_pow2 by lia.
  apply Z.div_str_pos. split; [apply Z.pow_pos_nonneg; lia|].
  transitivity (2 ^ Z.log2 m); [apply Z.pow_le_mono_r; lia|].
  apply Z.log2_spec. assumption.
Qed.

Lemma shr_record_of_loc_m (m : Z) (l : location) : shr_m (shr_record_of_loc m l) = m.
Proof. destruct l as [|[| |]]; reflexivity. Qed.

(** Above the least exponent the shift to the format keeps a positive
    mantissa positive. *)
Lemma shr_fexp_pos (m e : Z) (l : location) :
  0 < m -> emin F64.prec F64.emax < Zdigits2 m + e ->
  0 < shr_m (fst (shr_fexp F64.prec F64.emax m e l)) /\
  emin F64.prec F64.emax <
    Zdigits2 (shr_m (fst (shr_fexp F64.prec F64.emax m e l))) +
    snd (shr_fexp F64.prec F64.emax m e l).
Proof.
  intros Hm He. unfold shr_fexp, shr.
  pose proof (Zdigits2_log2 m Hm) as Hd.
  pose proof (Z.log2_nonneg m) as Hl.
  destruct (fexp F64.prec F64.emax (Zdigits2 m + e) - e) as [|n|n] eqn:Hn; simpl;
    rewrite ?shr_record_of_loc_m; try (split; assumption).
  assert (Hshift : 0 < Z.shiftr m (Z.pos n)).
  { apply shiftr_pos; [assumption|]. unfold fexp, emin, F64.prec, F64.emax in *. lia. }
  rewrite iter_shr_1_m by (rewrite shr_record_of_loc_m; lia).
  rewrite shr_record_of_loc_m. split; [assumption|].
  rewrite (Zdigits2_log2 _ Hshift).
  pose proof (Z.log2_nonneg (Z.shiftr m (Z.pos n))).
  unfold fexp, emin, F64.prec, F64.emax in *. lia.
Qed.

Lemma round_nearest_even_ge (m : Z) (l : location) : m <= round_nearest_even m l.
Proof.
  destruct l as [|[| |]]; simpl; try lia. destruct (Z.even m); lia.
Qed.

(** Rounding a positive mantissa above the least exponent gives a number
    or an infinity of the sign asked for: no zero and no [nan]. *)
Lemma binary_round_aux_signed (sx : bool) (mx ex : Z) (lx : location) :
  0 < mx -> emin F64.prec F64.emax < Zdigits2 mx + ex ->
  strictly_signed sx (binary_round_aux F64.prec F64.emax sx mx ex lx).
Proof.
  intros Hm He. unfold binary_round_aux.
  destruct (shr_fexp_pos mx ex lx Hm He) as [H1 H2].
  destruct (shr_fexp F64.prec F64.emax mx ex lx) as [mrs' e']; simpl in H1, H2.
  set (m2 := round_nearest_even (shr_m mrs') (loc_of_shr_record mrs')).
  assert (Hm2 : shr_m mrs' <= m2) by apply round_nearest_even_ge.
  assert (H3 : 0 < m2) by lia.
  assert (H4 : emin F64.prec F64.emax < Zdigits2 m2 + e').
  { rewrite (Zdigits2_log2 _ H3). rewrite (Zdigits2_log2 _ H1) in H2.
    pose proof (Z.log2_le_mono _ _ Hm2). lia. }
  destruct (shr_fexp_pos m2 e' loc_Exact H3 H4) as [H5 _].
  destruct (shr_fexp F64.prec F64.emax m2 e' loc_Exact) as [mrs'' e'']; simpl in H5.
  destruct (shr_m mrs''); try lia.
  destruct (e'' <=? _); reflexivity.
Qed.

(** The float of an integer other than 0 has the sign of the integer. *)
Lemma of_Z_signed (n : Z) : n <> 0 -> strictly_signed (n <? 0) (F64.of_Z n).
Proof.
  destruct n as [|m|m]; intros Hn; [congruence| |];
    unfold F64.of_Z, binary_normalize, binary_round;
    destruct (shl_align m 0 _) as [mz ez] eqn:Hs;
    apply binary_round_aux_signed; try lia;
    unfold shl_align in Hs;
    destruct (fexp F64.prec F64.emax (Z.pos (digits2_pos m) + 0) - 0) eqn:Hf;
    inversion Hs; subst;
    simpl Zdigits2; unfold fexp, emin, F64.prec, F64.emax in *; lia.
Qed.

(** Converting an integer to a float keeps its place about 0. *)
Lemma ltb_0_of_Z (n : Z) : F64.ltb (F64.of_Z 0) (F64.of_Z n) = (0 <? n).
Proof.
  destruct (Z.eq_dec n 0) as [->|Hn]; [reflexivity|].
  pose proof (of_Z_signed n Hn) as Hs.
  change (F64.of_Z 0) with (S754_zero false).
  destruct (F64.of_Z n) as [s|s| |s m e]; simpl in Hs; try contradiction; subst s;
    unfold F64.ltb, SFltb; simpl;
    destruct (Z.ltb_spec n 0), (Z.ltb_spec 0 n); try reflexivity; lia.
Qed.

(** ** The functions of the notebook on one cell *)

Lemma gt_0_gt_zero (x : value) (b : bool) :
  Py.gt x 0 = Ok b -> (b = true <-> gt_zero x).
Proof.
  destruct x as [n|f|s]; simpl; intros H; inversion H; subst; clear H.
  - apply Z.ltb_lt.
  - reflexivity.
Qed.

Lemma flag_positive_cases (x h : value) :
  flag_positive x = Ok h ->
  (h = VInt 1 /\ gt_zero x) \/ (h = VInt 0 /\ ~ gt_zero x).
Proof.
  unfold flag_positive. intros H. bind_inv H.
  apply gt_0_gt_zero in Ha. inversion H; subst; clear H.
  destruct a; [left|right]; split; try reflexivity.
  - now apply Ha.
  - intros Hx. apply Ha in Hx. discriminate.
Qed.


(** On a non-negative number, not positive is zero. *)
Lemma not_gt_zero_eq_zero (x : value) :
  ge_zero x -> (~ gt_zero x <-> eq_zero x).
Proof.
  destruct x as [n|f|s]; cbn [ge_zero gt_zero eq_zero]; [lia| |tauto].
  rewrite of_Z_0.
  destruct f as [s|s| |s m e]; try destruct s;
    try (cbv; intuition (try discriminate; try congruence)).
Qed.

Lemma categorize_availability_cases (x s : value) :
  categorize_availability x = Ok s ->
  (Py.eq x 0 = true /\ s = VStr "Not Available") \/
  (Py.eq x 0 = false /\ Py.le x 120 = Ok true /\ s = VStr "Low") \/
  (Py.eq x 0 = false /\ Py.le x 120 = Ok false /\ Py.le x 240 = Ok true /\
   s = VStr "Medium") \/
  (Py.eq x 0 = false /\ Py.le x 120 = Ok false /\ Py.le x 240 = Ok false /\
   s = VStr "High").
Proof.
  unfold categorize_availability.
  destruct (Py.eq x 0); intros H.
  - left. inversion H. tauto.
  - right. bind_inv H. destruct a.
    + left. inversion H. tauto.
    + right. bind_inv H. destruct a; inversion H; tauto.
Qed.

Lemma eq_0_eq_zero (x : value) : Py.eq x 0 = true <-> eq_zero x.
Proof.
  destruct x as [n|f|s]; simpl; [apply Z.eqb_eq|reflexivity|].
  split; [discriminate|tauto].
Qed.

(** The four intervals on a cell between 0 and 365. *)
Lemma buckets_of_cell (x : value) (b120 b240 : bool) :
  between 0 365 x ->
  Py.le x 120 = Ok b120 -> Py.le x 240 = Ok b240 ->
  (Py.eq x 0 = false /\ b120 = true <-> within 0 120 x) /\
  (Py.eq x 0 = false /\ b120 = false /\ b240 = true <-> within 120 240 x) /\
  (Py.eq x 0 = false /\ b120 = false /\ b240 = false <-> within 240 365 x).
Proof.
  destruct x as [n|f|s]; cbn [between within Py.eq Py.le]; try tauto.
  - intros Hn H1 H2. inversion H1; inversion H2; subst; clear H1 H2.
    rewrite Z.eqb_neq, Z.leb_le, !Z.leb_gt. lia.
  - rewrite of_Z_0, of_Z_120, of_Z_240, of_Z_365.
    intros [H0 H365] H1 H2. inversion H1; inversion H2; subst; clear H1 H2.
    destruct f as [s|s| |s m e]; try destruct s; try discriminate.
    + simpl. intuition discriminate.
    + simpl. intuition discriminate.
    + clear H0. change (F64.eqb (S754_finite false m e) (S754_zero false)) with false.
      rewrite !ltb_finite, <- !Bool.not_true_iff_false, !leb_finite.
      change (F64.ltb (S754_zero false) (S754_finite false m e)) with true.
      apply leb_finite in H365.
      assert (Hf : false <> true) by discriminate.
      intuition lia.
Qed.

Lemma replace_cell_infinities (q : float) :
  Pd.replace_cell [F64.inf; F64.neg_inf] F64.nan (VFloat q) =
  VFloat (if F64.is_inf q then F64.nan else q).
Proof.
  destruct q as [s|s| |s m e]; try destruct s; reflexivity.
Qed.

Lemma np_truediv_float (a b v : value) :
  Np.truediv a b = Ok v -> exists q, v = VFloat q.
Proof.
  unfold Np.truediv. intros H. bind_inv H. bind_inv H. inversion H. eauto.
Qed.

Lemma row_truediv_float (dt : dtype) (a b v : value) :
  Pd.truediv dt a b = Ok v -> exists q, v = VFloat q.
Proof.
  destruct dt; simpl; eauto using np_truediv_float, truediv_float.
Qed.

(** A cell of [df.values] lies about 0 as the cell of the column does. *)
Lemma gt_astype (dt : dtype) (x : value) : Py.gt (Pd.astype dt x) 0 = Py.gt x 0.
Proof.
  destruct dt, x as [n|f|s]; try reflexivity.
  simpl. now rewrite ltb_0_of_Z.
Qed.

(** When [price_ratio] returns, it returns the quotient of the two cells
    under a positive [minimum_nights] and [nan] otherwise. *)
Lemma price_ratio_cases (row : Row) (v : value) :
  price_ratio row = Ok v ->
  exists m,
    Pd.getitem (row_cells row) "minimum_nights" = Ok m /\
    ((Py.gt m 0 = Ok true /\
      exists p q, Pd.getitem (row_cells row) "price" = Ok p /\
                  Pd.truediv (row_dtype row) p m = Ok (VFloat q) /\ v = VFloat q) \/
     (Py.gt m 0 = Ok false /\ v = Py.nan)).
Proof.
  unfold price_ratio. intros H. bind_inv H. rename a into m, Ha into Hm.
  exists m. split; [assumption|].
  bind_inv H. destruct a.
  - left. split; [assumption|].
    bind_inv H. rename a into p, Ha0 into Hp.
    bind_inv H. rewrite Hm in Ha0. inversion Ha0; subst a; clear Ha0.
    destruct (row_truediv_float _ _ _ _ H) as [q ->]. now exists p, q.
  - right. inversion H. tauto.
Qed.

(** The same on row [i] of a table, in terms of the cells of the
    columns. *)
Lemma ratio_cases (dt : dtype) (df : DataFrame) (i : nat) (v : value) :
  price_ratio (Pd.row_as dt df i) = Ok v ->
  exists m,
    Pd.at_ df i "minimum_nights" = Ok m /\
    ((gt_zero m /\
      exists p q, Pd.at_ df i "price" = Ok p /\
                  Pd.quotient dt p m = Ok (VFloat q) /\ v = VFloat q) \/
     (~ gt_zero m /\ v = Py.nan)).
Proof.
  intros H. destruct (price_ratio_cases _ _ H) as (m' & Hm' & Hcases).
  rewrite getitem_row_at in Hm'. bind_inv Hm'. rename a into m, Ha into Hm.
  inversion Hm'; subst m'; clear Hm'.
  exists m. split; [assumption|].
  rewrite gt_astype in Hcases.
  destruct Hcases as [(Hgt & p' & q & Hp' & Hq & ->)|(Hgt & ->)];
    apply gt_0_gt_zero in Hgt.
  - left. split; [now apply Hgt|].
    rewrite getitem_row_at in Hp'. bind_inv Hp'. rename a into p, Ha into Hp.
    inversion Hp'; subst p'; clear Hp'.
    now exists p, q.
  - right. split; [|reflexivity]. intros Hx. apply Hgt in Hx. discriminate.
Qed.

Lemma ratio_rows_nth (df : DataFrame) (i : nat) (d : Row) :
  (i < index df)%nat -> nth i (ratio_rows df) d = Pd.row_as (rows_dtype df) df i.
Proof.
  intros Hi. unfold ratio_rows.
  rewrite (nth_indep _ d (Pd.row_as (rows_dtype df) df 0))
    by now rewrite length_map, length_seq.
  rewrite (map_nth (Pd.row_as (rows_dtype df) df) (seq 0 (index df)) 0%nat i).
  now rewrite seq_nth.
Qed.

Lemma ratio_rows_length (df : DataFrame) : List.length (ratio_rows df) = index df.
Proof. unfold ratio_rows. now rewrite length_map, length_seq. Qed.

(** ** The pipeline, row by row

    Each derived cell of row [i] of the written table is the notebook's
    function of cells of row [i] of the table read. *)
Lemma pipeline_row (df df' : DataFrame) (i : nat) :
  well_formed df -> pipeline df = Ok df' -> (i < index df)%nat ->
  exists reviews avail room flag ratio active season,
    Pd.at_ df i "number_of_reviews" = Ok reviews /\
    Pd.at_ df i "availability_365" = Ok avail /\
    Pd.at_ df i "room_type" = Ok room /\
    flag_positive reviews = Ok flag /\
    price_ratio (Pd.row_as (rows_dtype df) df i) = Ok ratio /\
    flag_positive avail = Ok active /\
    categorize_availability avail = Ok season /\
    Pd.at_ df' i "has_review" = Ok flag /\
    Pd.at_ df' i "price_per_night" =
      Ok (Pd.replace_cell [F64.inf; F64.neg_inf] F64.nan ratio) /\
    Pd.at_ df' i "active_listing" = Ok active /\
    Pd.at_ df' i "seasonal_availability" = Ok season /\
    Pd.at_ df' i "is_entire_home" = Ok (VInt (Z.b2z (Py.eq_str room "Entire home/apt"))).
Proof.
  intros Hwf H Hi.
  destruct (pipeline_columns _ _ H)
    as (reviews & avail & rooms & s1 & s2 & s4 & s5 &
        G1 & G4 & G6 & E1 & (E2 & _) & E4 & E5 & _ & L1 & L2 & L4 & L5 & L6 & _).
  pose proof (column_length _ _ _ Hwf G1) as N1.
  pose proof (column_length _ _ _ Hwf G4) as N4.
  pose proof (column_length _ _ _ Hwf G6) as N6.
  exists (nth i reviews Py.nan), (nth i avail Py.nan), (nth i rooms Py.nan),
         (nth i s1 Py.nan), (nth i s2 Py.nan), (nth i s4 Py.nan), (nth i s5 Py.nan).
  rewrite (at_column _ _ _ _ G1), (at_column _ _ _ _ G4), (at_column _ _ _ _ G6),
          (at_column _ _ _ _ L1), (at_column _ _ _ _ L2), (at_column _ _ _ _ L4),
          (at_column _ _ _ _ L5), (at_column _ _ _ _ L6).
  repeat split.
  - apply mapM_nth; [assumption|lia].
  - rewrite <- (ratio_rows_nth df i (mkRow Object [])) by assumption.
    apply mapM_nth; [assumption|now rewrite ratio_rows_length].
  - apply mapM_nth; [assumption|lia].
  - apply mapM_nth; [assumption|lia].
  - unfold Pd.replace.
    change Py.nan with (Pd.replace_cell [F64.inf; F64.neg_inf] F64.nan Py.nan) at 1.
    now rewrite map_nth.
  - unfold Pd.eq_astype_int.
    rewrite (nth_indep _ Py.nan (VInt (Z.b2z (Py.eq_str Py.nan "Entire home/apt"))))
      by (rewrite length_map; lia).
    now rewrite (map_nth (fun v => VInt (Z.b2z (Py.eq_str v "Entire home/apt")))).
Qed.

(** ** The tables of the examples *)

Ltac well_formed_table :=
  split; [repeat constructor|unfold Pd.column_names; simpl];
  repeat (constructor; [simpl; intuition discriminate|]); constructor.

Lemma listings_well_formed : well_formed listings.
Proof. well_formed_table. Qed.

Lemma relisted_well_formed : well_formed relisted.
Proof. well_formed_table. Qed.

Lemma overflowing_well_formed : well_formed overflowing.
Proof. well_formed_table. Qed.



Example pipeline_listings : pipeline listings = Ok listings_featured.
Proof. vm_compute. reflexivity. Qed.



Example pipeline_relisted : pipeline relisted = Ok relisted_featured.
Proof. vm_compute. reflexivity. Qed.

(** A table without rows: [df.apply] tries the function on a row of
    [nan]s.  With a [minimum_nights] column the row passes and five empty
    columns are written; without it the [KeyError] of the row is dropped,
    [df.apply] returns a copy of the table, and the assignment of a table
    of several columns to one column raises [ValueError]. *)
Example pipeline_header_only : pipeline header_only = Ok header_only_featured.
Proof. vm_compute. reflexivity. Qed.

Example pipeline_header_without_nights :
  pipeline header_without_nights = Raise ValueError.
Proof. vm_compute. reflexivity. Qed.

(** The quotient of the row of [overflowing] is infinite, and the written
    cell is [nan]. *)
Example overflowing_ratio :
  price_ratio (Pd.iloc overflowing 0) = Ok (VFloat F64.inf) /\
  (df' <- pipeline overflowing;; Pd.at_ df' 0 "price_per_night") = Ok Py.nan.
Proof. split; vm_compute; reflexivity. Qed.

(** ** The derived columns *)

(** C5: in every row of the written table [has_review] is 0 or 1, and it
    is 1 exactly when [number_of_reviews] of that row is greater than 0. *)
Theorem has_review_flag (df df' : DataFrame) (i : nat) :
  well_formed df -> pipeline df = Ok df' -> (i < index df)%nat ->
  exists n h,
    Pd.at_ df i "number_of_reviews" = Ok n /\
    Pd.at_ df' i "has_review" = Ok (VInt h) /\
    (h = 0 \/ h = 1) /\
    (h = 1 <-> gt_zero n).
Proof.
  intros Hwf H Hi.
  destruct (pipeline_row _ _ _ Hwf H Hi)
    as (n & _ & _ & flag & _ & _ & _ & Hn & _ & _ & Hflag & _ & _ & _ & Hout & _).
  destruct (flag_positive_cases _ _ Hflag) as [[-> Hpos]|[-> Hneg]].
  - exists n, 1. intuition.
  - exists n, 0. intuition discriminate.
Qed.

Lemma has_review_flag_witness :
  exists n h,
    Pd.at_ listings 2 "number_of_reviews" = Ok n /\
    Pd.at_ listings_featured 2 "has_review" = Ok (VInt h) /\
    (h = 0 \/ h = 1) /\
    (h = 1 <-> gt_zero n).
Proof.
  apply (has_review_flag listings listings_featured 2).
  - exact listings_well_formed.
  - exact pipeline_listings.
  - simpl. lia.
Defined.

(** C6: in every row of the written table [active_listing] is 1 exactly
    when [availability_365] of that row is greater than 0, and 0 exactly
    when it is not. *)
Theorem active_listing_flag (df df' : DataFrame) (i : nat) :
  well_formed df -> pipeline df = Ok df' -> (i < index df)%nat ->
  exists a h,
    Pd.at_ df i "availability_365" = Ok a /\
    Pd.at_ df' i "active_listing" = Ok (VInt h) /\
    (h = 1 <-> gt_zero a) /\
    (h = 0 <-> ~ gt_zero a).
Proof.
  intros Hwf H Hi.
  destruct (pipeline_row _ _ _ Hwf H Hi)
    as (_ & a & _ & _ & _ & active & _ & _ & Ha & _ & _ & _ & Hactive & _ & _ & _ & Hout & _).
  destruct (flag_positive_cases _ _ Hactive) as [[-> Hpos]|[-> Hneg]].
  - exists a, 1. intuition discriminate.
  - exists a, 0. intuition discriminate.
Qed.

Lemma active_listing_flag_witness :
  exists a h,
    Pd.at_ listings 2 "availability_365" = Ok a /\
    Pd.at_ listings_featured 2 "active_listing" = Ok (VInt h) /\
    (h = 1 <-> gt_zero a) /\
    (h = 0 <-> ~ gt_zero a).
Proof.
  apply (active_listing_flag listings listings_featured 2).
  - exact listings_well_formed.
  - exact pipeline_listings.
  - simpl. lia.
Defined.

(** C7: in every row of the written table [is_entire_home] is 1 exactly
    when [room_type] of that row is the string "Entire home/apt", and 0 for
    every other value. *)
Theorem is_entire_home_flag (df df' : DataFrame) (i : nat) :
  well_formed df -> pipeline df = Ok df' -> (i < index df)%nat ->
  exists room h,
    Pd.at_ df i "room_type" = Ok room /\
    Pd.at_ df' i "is_entire_home" = Ok (VInt h) /\
    (h = 1 <-> room = VStr "Entire home/apt") /\
    (h = 0 <-> room <> VStr "Entire home/apt").
Proof.
  intros Hwf H Hi.
  destruct (pipeline_row _ _ _ Hwf H Hi)
    as (_ & _ & room & _ & _ & _ & _ & _ & _ & Hroom & _ & _ & _ & _ & _ & _ & _ & _ & Hout).
  exists room, (Z.b2z (Py.eq_str room "Entire home/apt")).
  repeat split; try assumption;
    destruct room as [n|f|s]; simpl; try congruence; try discriminate;
    destruct (String.eqb_spec s "Entire home/apt"); simpl; congruence.
Qed.

Lemma is_entire_home_flag_witness :
  exists room h,
    Pd.at_ listings 1 "room_type" = Ok room /\
    Pd.at_ listings_featured 1 "is_entire_home" = Ok (VInt h) /\
    (h = 1 <-> room = VStr "Entire home/apt") /\
    (h = 0 <-> room <> VStr "Entire home/apt").
Proof.
  apply (is_entire_home_flag listings listings_featured 1).
  - exact listings_well_formed.
  - exact pipeline_listings.
  - simpl. lia.
Defined.

(** What [Pd.quotient] is in each dtype: Python's division of the two
    cells in an object row, the IEEE division of their floats in a number
    row. *)
Lemma quotient_object (p m : value) : Pd.quotient Object p m = Py.truediv p m.
Proof. reflexivity. Qed.

Lemma quotient_numbers (dt : dtype) (p m : value) (x y : float) :
  dt <> Object -> Np.float64 p = Ok x -> Np.float64 m = Ok y ->
  Pd.quotient dt p m = Ok (VFloat (F64.div x y)).
Proof.
  intros Hdt Hp Hm. unfold Pd.quotient, Pd.truediv, Np.truediv.
  destruct dt; try congruence;
    destruct p, m; simpl in *; inversion Hp; inversion Hm; reflexivity.
Qed.



(** C2: in every row whose [availability_365] lies between 0 and 365,
    [seasonal_availability] is one of four labels: "Not Available" exactly
    when the availability is 0, "Low" exactly when it is above 0 and at most
    120, "Medium" exactly when it is above 120 and at most 240, "High"
    exactly when it is above 240 and at most 365. *)
Theorem seasonal_availability_buckets (df df' : DataFrame) (i : nat) (a : value) :
  well_formed df -> pipeline df = Ok df' -> (i < index df)%nat ->
  Pd.at_ df i "availability_365" = Ok a -> between 0 365 a ->
  exists label,
    Pd.at_ df' i "seasonal_availability" = Ok (VStr label) /\
    In label ["Not Available"; "Low"; "Medium"; "High"] /\
    (label = "Not Available" <-> eq_zero a) /\
    (label = "Low" <-> within 0 120 a) /\
    (label = "Medium" <-> within 120 240 a) /\
    (label = "High" <-> within 240 365 a).
Proof.
  intros Hwf H Hi Ha Hrange.
  destruct (pipeline_row _ _ _ Hwf H Hi)
    as (_ & a' & _ & _ & _ & _ & season & _ & Ha' & _ & _ & _ & _ & Hseason & _ & _ & _ & Hout & _).
  rewrite Ha in Ha'. inversion Ha'; subst a'; clear Ha'.
  assert (Hle : exists b120 b240, Py.le a 120 = Ok b120 /\ Py.le a 240 = Ok b240)
    by (destruct a; simpl in *; [eauto|eauto|tauto]).
  destruct Hle as (b120 & b240 & H120 & H240).
  destruct (buckets_of_cell a b120 b240 Hrange H120 H240) as (Low & Medium & High).
  pose proof (eq_0_eq_zero a) as Zero.
  destruct (categorize_availability_cases _ _ Hseason)
    as [(E0 & ->)|[(E0 & E1 & ->)|[(E0 & E1 & E2 & ->)|(E0 & E1 & E2 & ->)]]];
    rewrite ?H120, ?H240 in *;
    repeat match goal with
           | E : Ok _ = Ok _ |- _ => inversion E; subst; clear E
           end;
    eexists; (split; [exact Hout|]); simpl;
    (split; [tauto|]);
    repeat split; intros; try discriminate; try reflexivity; try tauto;
    try (exfalso; intuition congruence).
Qed.

Lemma seasonal_availability_buckets_witness :
  exists label,
    Pd.at_ listings_featured 1 "seasonal_availability" = Ok (VStr label) /\
    In label ["Not Available"; "Low"; "Medium"; "High"] /\
    (label = "Not Available" <-> eq_zero (VInt 121)) /\
    (label = "Low" <-> within 0 120 (VInt 121)) /\
    (label = "Medium" <-> within 120 240 (VInt 121)) /\
    (label = "High" <-> within 240 365 (VInt 121)).
Proof.
  apply (seasonal_availability_buckets listings listings_featured 1 (VInt 121)).
  - exact listings_well_formed.
  - exact pipeline_listings.
  - simpl. lia.
  - reflexivity.
  - simpl. lia.
Defined.

(** C9: [categorize_availability] returns one of the four labels on every
    integer: "Low" on every integer below 0 and "High" on every integer
    above 365. *)
Theorem categorize_availability_total (x : Z) :
  exists label,
    categorize_availability (VInt x) = Ok (VStr label) /\
    In label ["Not Available"; "Low"; "Medium"; "High"] /\
    (x < 0 -> label = "Low") /\
    (365 < x -> label = "High").
Proof.
  unfold categorize_availability; simpl.
  destruct (Z.eqb_spec x 0) as [->|H0].
  - exists "Not Available". simpl. repeat split; try tauto; lia.
  - destruct (Z.leb_spec x 120) as [H120|H120]; simpl.
    + exists "Low". simpl. repeat split; try tauto; lia.
    + destruct (Z.leb_spec x 240) as [H240|H240]; simpl.
      * exists "Medium". simpl. repeat split; try tauto; lia.
      * exists "High". simpl. repeat split; try tauto; lia.
Qed.

(** C10: in every row whose [availability_365] is 0 or more,
    [active_listing] is 0 exactly when [seasonal_availability] is
    "Not Available". *)
Theorem active_listing_consistent (df df' : DataFrame) (i : nat) (a : value) :
  well_formed df -> pipeline df = Ok df' -> (i < index df)%nat ->
  Pd.at_ df i "availability_365" = Ok a -> ge_zero a ->
  exists active season,
    Pd.at_ df' i "active_listing" = Ok active /\
    Pd.at_ df' i "seasonal_availability" = Ok season /\
    (active = VInt 0 <-> season = VStr "Not Available").
Proof.
  intros Hwf H Hi Ha Hge.
  destruct (pipeline_row _ _ _ Hwf H Hi)
    as (_ & a' & _ & _ & _ & active & season & _ & Ha' & _ & _ & _ & Hactive & Hseason &
        _ & _ & Hout1 & Hout2 & _).
  rewrite Ha in Ha'. inversion Ha'; subst a'; clear Ha'.
  exists active, season. repeat split; try assumption.
  - intros ->.
    destruct (flag_positive_cases _ _ Hactive) as [[E _]|[_ Hneg]]; [discriminate|].
    apply (not_gt_zero_eq_zero a Hge), eq_0_eq_zero in Hneg.
    unfold categorize_availability in Hseason. rewrite Hneg in Hseason.
    now inversion Hseason.
  - intros ->.
    destruct (flag_positive_cases _ _ Hactive) as [[_ Hpos]|[E _]]; [|assumption].
    destruct (categorize_availability_cases _ _ Hseason)
      as [(E0 & _)|[(_ & _ & E)|[(_ & _ & _ & E)|(_ & _ & _ & E)]]]; try discriminate.
    apply eq_0_eq_zero, (not_gt_zero_eq_zero a Hge) in E0. contradiction.
Qed.

Lemma active_listing_consistent_witness :
  exists active season,
    Pd.at_ listings_featured 2 "active_listing" = Ok active /\
    Pd.at_ listings_featured 2 "seasonal_availability" = Ok season /\
    (active = VInt 0 <-> season = VStr "Not Available").
Proof.
  apply (active_listing_consistent listings listings_featured 2 (VInt 0)).
  - exact listings_well_formed.
  - exact pipeline_listings.
  - simpl. lia.
  - reflexivity.
  - simpl. lia.
Defined.




(** ** The shape of the written table *)

Lemma setitem_overwrite_last (df df' : DataFrame) (l : list (string * Series))
      (k : string) (s0 s : Series) :
  columns df = l ++ [(k, s0)] -> ~ In k (map fst l) ->
  Pd.setitem df k s = Ok df' -> columns df' = l ++ [(k, s)].
Proof.
  intros Hc Hk. unfold Pd.setitem.
  destruct (negb _); [discriminate|].
  assert (Hhas : Pd.has_column df k = true).
  { rewrite has_column_lookup, Hc, lookup_app_one.
    apply lookup_None in Hk. now rewrite Hk, String.eqb_refl. }
  rewrite Hhas. intros H; inversion H; subst; clear H; simpl.
  rewrite Hc, map_app; simpl. rewrite String.eqb_refl. f_equal.
  rewrite <- (map_id l) at 2. apply map_ext_in. intros [k' c] Hin; simpl.
  destruct (String.eqb_spec k' k) as [->|]; [|reflexivity].
  exfalso. apply Hk. change k with (fst (k, c)). now apply in_map.
Qed.

Lemma run_index (df df' : DataFrame) (a : assignment) :
  run df a = Ok df' -> index df' = index df.
Proof.
  intros H. apply run_inv in H. destruct H as (s & _ & _ & Hidx & _). exact Hidx.
Qed.

(** An assignment to a new name appends one column. *)
Lemma run_fresh (df df' : DataFrame) (a : assignment) :
  ~ In (fst a) (Pd.column_names df) -> run df a = Ok df' ->
  exists s, columns df' = columns df ++ [(fst a, s)].
Proof.
  unfold run. intros Hk H. bind_inv H. exists a0. eauto using setitem_fresh.
Qed.

(** C3, amended: on every table that holds none of the five derived names
    the written table has the rows of the table read, and its columns are
    the columns of the table read, unchanged and in their order, followed by
    the five derived columns: five columns more. *)
Theorem pipeline_appends_five (df df' : DataFrame) :
  (forall key, In key derived_columns -> ~ In key (Pd.column_names df)) ->
  pipeline df = Ok df' ->
  index df' = index df /\
  List.length (columns df') = (List.length (columns df) + 5)%nat /\
  exists s1 s2 s3 s4 s5,
    columns df' =
    columns df ++ [ ("has_review", s1); ("price_per_night", s2);
                    ("active_listing", s3); ("seasonal_availability", s4);
                    ("is_entire_home", s5) ].
Proof.
  intros Hfresh H.
  assert (Hnew : forall key l, In key derived_columns ->
                 ~ In key l -> ~ In key (Pd.column_names df ++ l)).
  { intros key l Hkey Hl Hin. apply in_app_or in Hin.
    destruct Hin; [now apply (Hfresh key)|contradiction]. }
  unfold pipeline, assignments in H; simpl in H.
  bind_inv H. rename a into df1, Ha into H1.
  bind_inv H. rename a into df2, Ha into H2.
  bind_inv H. rename a into df3, Ha into H3.
  bind_inv H. rename a into df4, Ha into H4.
  bind_inv H. rename a into df5, Ha into H5.
  bind_inv H. rename a into df6, Ha into H6.
  inversion H; subst df6; clear H.
  pose proof (run_index _ _ _ H1) as I1. pose proof (run_index _ _ _ H2) as I2.
  pose proof (run_index _ _ _ H3) as I3. pose proof (run_index _ _ _ H4) as I4.
  pose proof (run_index _ _ _ H5) as I5. pose proof (run_index _ _ _ H6) as I6.
  apply run_fresh in H1; [|apply Hfresh; simpl; tauto].
  destruct H1 as (s1 & C1). simpl fst in C1.
  apply run_fresh in H2;
    [|unfold Pd.column_names; rewrite C1, map_app; apply Hnew; simpl;
      intuition discriminate].
  destruct H2 as (s2 & C2). simpl fst in C2.
  unfold run in H3. bind_inv H3. rename a into s3. simpl fst in H3.
  apply (setitem_overwrite_last _ _ _ _ _ _ C2) in H3;
    [|rewrite C1, map_app; apply Hnew; simpl; intuition discriminate].
  rename H3 into C3.
  apply run_fresh in H4;
    [|unfold Pd.column_names; rewrite C3, C1, !map_app, <- app_assoc; apply Hnew; simpl;
      intuition discriminate].
  destruct H4 as (s4 & C4). simpl fst in C4.
  apply run_fresh in H5;
    [|unfold Pd.column_names; rewrite C4, C3, C1, !map_app, <- !app_assoc; apply Hnew; simpl;
      intuition discriminate].
  destruct H5 as (s5 & C5). simpl fst in C5.
  apply run_fresh in H6;
    [|unfold Pd.column_names;
      rewrite C5, C4, C3, C1, !map_app, <- !app_assoc; apply Hnew; simpl;
      intuition discriminate].
  destruct H6 as (s6 & C6). simpl fst in C6.
  assert (Hcols : columns df' =
                  columns df ++ [ ("has_review", s1); ("price_per_night", s3);
                                  ("active_listing", s4); ("seasonal_availability", s5);
                                  ("is_entire_home", s6) ])
    by (rewrite C6, C5, C4, C3, C1, <- !app_assoc; reflexivity).
  split; [congruence|]. split.
  - rewrite Hcols, length_app. reflexivity.
  - now exists s1, s3, s4, s5, s6.
Qed.

Lemma pipeline_appends_five_witness :
  index listings_featured = index listings /\
  List.length (columns listings_featured) = (List.length (columns listings) + 5)%nat /\
  exists s1 s2 s3 s4 s5,
    columns listings_featured =
    columns listings ++ [ ("has_review", s1); ("price_per_night", s2);
                          ("active_listing", s3); ("seasonal_availability", s4);
                          ("is_entire_home", s5) ].
Proof.
  apply (pipeline_appends_five listings listings_featured).
  - intros key Hkey. unfold derived_columns in Hkey. simpl in Hkey. simpl.
    intuition (subst; discriminate).
  - exact pipeline_listings.
Defined.

(** C3, as stated, fails: on a table that holds a column named
    [has_review] already, that column is overwritten where it stands and the
    written table has four columns more, not five. *)
Lemma column_count_not_always_five :
  ~ (forall df df', well_formed df -> pipeline df = Ok df' ->
                    List.length (columns df') = (List.length (columns df) + 5)%nat).
Proof.
  intros H.
  specialize (H relisted relisted_featured relisted_well_formed pipeline_relisted).
  simpl in H. discriminate.
Qed.

Lemma in_column_names (df : DataFrame) (key : string) :
  In key (Pd.column_names df) <-> Pd.lookup key (columns df) <> None.
Proof.
  unfold Pd.column_names. rewrite lookup_None.
  destruct (in_dec string_dec key (map fst (columns df))); tauto.
Qed.

(** C4, amended: the notebook derives five columns, one in each of its
    five column-assigning cells (the [price_per_night] cell assigns its
    column twice, which makes six assignments); the written table holds the
    columns of the table read and these five. *)
Theorem pipeline_derives_five (df df' : DataFrame) :
  pipeline df = Ok df' ->
  derived_columns =
    [ "has_review"; "price_per_night"; "active_listing";
      "seasonal_availability"; "is_entire_home" ] /\
  List.length cells = 5%nat /\
  List.length assignments = 6%nat /\
  map (fun cell => nodup string_dec (map fst cell)) cells =
    map (fun name => [name]) derived_columns /\
  forall key, In key (Pd.column_names df') <->
              In key (Pd.column_names df) \/ In key derived_columns.
Proof.
  intros H. repeat split; try reflexivity.
  - intros Hin.
    destruct (in_dec string_dec key derived_columns) as [Hd|Hd]; [now right|left].
    destruct (pipeline_columns _ _ H)
      as (c1 & c2 & c3 & s1 & s2 & s4 & s5 & _ & _ & _ & _ & _ & _ & _ & _ &
          _ & _ & _ & _ & _ & Hother).
    apply in_column_names. rewrite <- (Hother key Hd). now apply in_column_names.
  - destruct (pipeline_columns _ _ H)
      as (c1 & c2 & c3 & s1 & s2 & s4 & s5 & _ & _ & _ & _ & _ & _ & _ & _ &
          L1 & L2 & L4 & L5 & L6 & Hother).
    intros [Hin|Hd].
    + destruct (in_dec string_dec key derived_columns) as [Hd|Hd].
      * unfold derived_columns in Hd; simpl in Hd. apply in_column_names.
        destruct Hd as [<-|[<-|[<-|[<-|[<-|[]]]]]]; congruence.
      * apply in_column_names. rewrite (Hother key Hd). now apply in_column_names.
    + unfold derived_columns in Hd; simpl in Hd. apply in_column_names.
      destruct Hd as [<-|[<-|[<-|[<-|[<-|[]]]]]]; congruence.
Qed.

Lemma pipeline_derives_five_witness :
  derived_columns =
    [ "has_review"; "price_per_night"; "active_listing";
      "seasonal_availability"; "is_entire_home" ] /\
  List.length cells = 5%nat /\
  List.length assignments = 6%nat /\
  map (fun cell => nodup string_dec (map fst cell)) cells =
    map (fun name => [name]) derived_columns /\
  forall key, In key (Pd.column_names relisted_featured) <->
              In key (Pd.column_names relisted) \/ In key derived_columns.
Proof.
  apply (pipeline_derives_five relisted relisted_featured).
  exact pipeline_relisted.
Defined.

(** C4, as stated, fails: the notebook derives five columns, not six. *)
Lemma derived_columns_not_six :
  pipeline listings = Ok listings_featured /\
  List.length (columns listings_featured) <> (List.length (columns listings) + 6)%nat /\
  List.length derived_columns <> 6%nat.
Proof.
  split; [exact pipeline_listings|]. split; simpl; discriminate.
Qed.

(** ** The pipeline completes on a typed table *)

Lemma run_Ok (df : DataFrame) (a : assignment) (s : Series) :
  snd a df = Ok s -> List.length s = index df ->
  exists df', run df a = Ok df' /\ index df' = index df /\
              forall key, Pd.lookup key (columns df') =
                          if String.eqb (fst a) key then Some s else Pd.lookup key (columns df).
Proof.
  intros Hs Hlen.
  assert (Hset : exists df', Pd.setitem df (fst a) s = Ok df').
  { unfold Pd.setitem. rewrite Hlen, Nat.eqb_refl; simpl.
    destruct (Pd.has_column df (fst a)); eauto. }
  destruct Hset as [df' Hset]. exists df'.
  destruct (setitem_inv _ _ _ _ Hset) as (_ & Hidx & Hl).
  unfold run. rewrite Hs; simpl. tauto.
Qed.

Lemma flag_positive_total (x : value) :
  numeric x -> exists h, flag_positive x = Ok h.
Proof.
  unfold flag_positive. destruct x; simpl; intros H; [eauto|eauto|contradiction].
Qed.

Lemma categorize_availability_numeric (x : value) :
  numeric x -> exists label, categorize_availability x = Ok label.
Proof.
  unfold categorize_availability.
  destruct x as [n|f|s]; simpl; intros H; [| |contradiction].
  - destruct (n =? 0); [eauto|]. destruct (n <=? 120); simpl; [eauto|].
    destruct (n <=? 240); simpl; eauto.
  - destruct (F64.eqb f _); [eauto|]. destruct (F64.leb f _); simpl; [eauto|].
    destruct (F64.leb f _); simpl; eauto.
Qed.

Lemma threshold_above_int64 : 9223372036854775808 < F64.overflow_threshold.
Proof. vm_compute. reflexivity. Qed.

(** Under a positive divisor the division of two typed cells returns. *)
Lemma truediv_total (p m : value) :
  machine_number p -> machine_number m -> gt_zero m ->
  exists q, Py.truediv p m = Ok q.
Proof.
  pose proof threshold_above_int64 as HT.
  destruct p as [p|x|s], m as [q|y|t]; cbn [Py.truediv machine_number gt_zero];
    try tauto; intros Hp Hm Hpos.
  - destruct (Z.eqb_spec q 0); [lia|].
    destruct (Z.leb_spec (F64.overflow_threshold * Z.abs q) (Z.abs p)); [nia|eauto].
  - unfold Py.to_float, Py.float_truediv.
    destruct (Z.leb_spec F64.overflow_threshold (Z.abs p)); [lia|]. cbn [bind].
    destruct y as [s|s| |s m e]; cbn [F64.is_zero]; eauto.
    destruct s; discriminate.
  - unfold Py.to_float.
    destruct (Z.eqb_spec q 0); [lia|].
    destruct (Z.leb_spec F64.overflow_threshold (Z.abs q)); [lia|]. cbn [bind]. eauto.
  - unfold Py.float_truediv.
    destruct y as [s|s| |s m e]; cbn [F64.is_zero]; eauto.
    destruct s; discriminate.
Qed.

Lemma Forall_nth_default {A : Type} (P : A -> Prop) (l : list A) (d : A) (i : nat) :
  Forall P l -> P d -> P (nth i l d).
Proof.
  intros Hl Hd. destruct (Nat.lt_ge_cases i (List.length l)) as [Hi|Hi].
  - rewrite Forall_forall in Hl. apply Hl. now apply nth_In.
  - now rewrite nth_overflow.
Qed.

Lemma mapM_Forall_total {A B : Type} (P : A -> Prop) (f : A -> result B) (l : list A) :
  (forall a, P a -> exists b, f a = Ok b) -> Forall P l -> exists l', mapM f l = Ok l'.
Proof.
  intros Hf Hl. apply mapM_total. rewrite Forall_forall in Hl. auto.
Qed.

(** In a row of any dtype the quotient of two typed cells returns under a
    positive divisor. *)
Lemma quotient_total (dt : dtype) (p m : value) :
  machine_number p -> machine_number m -> gt_zero m ->
  exists q, Pd.quotient dt p m = Ok q.
Proof.
  intros Tp Tm Hpos. unfold Pd.quotient.
  destruct dt; cbn [Pd.truediv];
    try (destruct p, m; cbn [machine_number] in *; try tauto;
         unfold Np.truediv; cbn [Pd.astype Np.float64 bind]; eauto; fail).
  destruct p, m; cbn [Pd.astype]; now apply truediv_total.
Qed.

Lemma ratio_total (dt : dtype) (df : DataFrame) (i : nat) (price nights : Series) :
  Pd.lookup "price" (columns df) = Some price ->
  Pd.lookup "minimum_nights" (columns df) = Some nights ->
  Forall machine_number price -> Forall machine_number nights ->
  exists v, price_ratio (Pd.row_as dt df i) = Ok v.
Proof.
  intros Gp Gm Tp Tm. apply getitem_Ok in Gp, Gm.
  assert (Hp : machine_number (nth i price Py.nan))
    by (apply Forall_nth_default; [assumption|exact I]).
  assert (Hm : machine_number (nth i nights Py.nan))
    by (apply Forall_nth_default; [assumption|exact I]).
  unfold price_ratio. rewrite !getitem_row_as, Gm, Gp; simpl.
  rewrite gt_astype.
  destruct (Py.gt (nth i nights Py.nan) 0) as [b|e] eqn:Hgt;
    [|destruct (nth i nights Py.nan); simpl in *; try discriminate; tauto].
  simpl. destruct b; [|eauto].
  apply (quotient_total dt); try assumption.
  now apply (gt_0_gt_zero _ true Hgt).
Qed.

(** The notebook completes when its three column lookups and its four
    maps do: the converse of [pipeline_columns]. *)
Lemma pipeline_complete (df : DataFrame) (reviews avail rooms s1 s2 s4 s5 : Series) :
  well_formed df ->
  Pd.lookup "number_of_reviews" (columns df) = Some reviews ->
  Pd.lookup "availability_365" (columns df) = Some avail ->
  Pd.lookup "room_type" (columns df) = Some rooms ->
  mapM flag_positive reviews = Ok s1 ->
  mapM price_ratio (ratio_rows df) = Ok s2 ->
  (index df = 0%nat -> Pd.lookup "minimum_nights" (columns df) <> None) ->
  mapM flag_positive avail = Ok s4 ->
  mapM categorize_availability avail = Ok s5 ->
  exists df', pipeline df = Ok df'.
Proof.
  intros Hwf G1 G4 G6 E1 E2 Hprobe E4 E5.
  unfold pipeline, assignments; simpl.
  (* has_review *)
  assert (N1 : List.length s1 = index df)
    by (rewrite (mapM_length _ _ _ E1); eauto using column_length).
  assert (S1 : exists df1, Pd.setitem df "has_review" s1 = Ok df1).
  { unfold Pd.setitem. rewrite N1, Nat.eqb_refl; simpl.
    destruct (Pd.has_column df "has_review"); eauto. }
  destruct S1 as [df1 S1].
  destruct (run_Ok df assign_has_review s1) as (df1' & R1 & I1 & L1);
    [simpl; apply getitem_Ok in G1; now rewrite G1|assumption|].
  assert (df1' = df1)
    by (unfold run in R1; simpl in R1; apply getitem_Ok in G1; rewrite G1 in R1;
        simpl in R1; unfold Pd.series_apply in R1; rewrite E1 in R1; simpl in R1;
        congruence).
  subst df1'. rewrite R1; simpl. simpl in L1.
  (* price_per_night *)
  destruct (run_Ok df1 assign_price_per_night s2) as (df2 & R2 & I2 & L2).
  { apply (price_column_after_flag df df1 reviews s1 s2 G1 E1 S1). tauto. }
  { rewrite (mapM_length _ _ _ E2), ratio_rows_length. congruence. }
  rewrite R2; simpl. simpl in L2.
  destruct (run_Ok df2 assign_price_per_night_finite
                   (Pd.replace [F64.inf; F64.neg_inf] F64.nan s2)) as (df3 & R3 & I3 & L3).
  { simpl. unfold Pd.getitem. now rewrite L2. }
  { unfold Pd.replace.
    rewrite length_map, (mapM_length _ _ _ E2), ratio_rows_length. congruence. }
  rewrite R3; simpl. simpl in L3.
  (* active_listing *)
  destruct (run_Ok df3 assign_active_listing s4) as (df4 & R4 & I4 & L4).
  { simpl. unfold Pd.getitem. rewrite L3, L2, L1; simpl. now rewrite G4. }
  { rewrite (mapM_length _ _ _ E4), (column_length _ _ _ Hwf G4). congruence. }
  rewrite R4; simpl. simpl in L4.
  (* seasonal_availability *)
  destruct (run_Ok df4 assign_seasonal_availability s5) as (df5 & R5 & I5 & L5).
  { simpl. unfold Pd.getitem. rewrite L4, L3, L2, L1; simpl. now rewrite G4. }
  { rewrite (mapM_length _ _ _ E5), (column_length _ _ _ Hwf G4). congruence. }
  rewrite R5; simpl. simpl in L5.
  (* is_entire_home *)
  destruct (run_Ok df5 assign_is_entire_home (Pd.eq_astype_int rooms "Entire home/apt"))
    as (df6 & R6 & I6 & L6).
  { simpl. unfold Pd.getitem. rewrite L5, L4, L3, L2, L1; simpl. now rewrite G6. }
  { unfold Pd.eq_astype_int. rewrite length_map, (column_length _ _ _ Hwf G6). congruence. }
  rewrite R6; simpl. eauto.
Qed.

(** X1: on a well-formed table whose source columns hold numbers (64-bit
    integers or floats) and whose [room_type] column exists, every cell of
    the notebook returns: a table is written. *)
Theorem pipeline_total (df : DataFrame) :
  well_formed df -> well_typed df -> exists df', pipeline df = Ok df'.
Proof.
  intros Hwf [(reviews & G1 & T1) (price & Gp & Tp) (nights & Gm & Tm)
                (avail & G4 & T4) (rooms & G6 & _)].
  destruct (mapM_Forall_total _ _ _ flag_positive_total T1) as [s1 E1].
  destruct (mapM_Forall_total _ _ _ flag_positive_total T4) as [s4 E4].
  destruct (mapM_Forall_total _ _ _ categorize_availability_numeric T4) as [s5 E5].
  assert (E2 : exists s2, mapM price_ratio (ratio_rows df) = Ok s2).
  { unfold ratio_rows. rewrite mapM_map. apply mapM_total. intros i _.
    now apply (ratio_total _ df i price nights). }
  destruct E2 as [s2 E2].
  apply (pipeline_complete df reviews avail rooms s1 s2 s4 s5); try assumption.
  intros _. congruence.
Qed.


(** ** Invariants of a run of assignments *)

Section Invariant.

Variable P : DataFrame -> Prop.
Hypothesis run_preserves :
  forall df df' a, P df -> run df a = Ok df' -> P df'.

(** What every assignment preserves holds after any list of them. *)
Lemma foldM_run_invariant (l : list assignment) (df df' : DataFrame) :
  P df -> foldM run l df = Ok df' -> P df'.
Proof.
  revert df. induction l as [|a l IH]; simpl; intros df Hdf H.
  - inversion H; now subst.
  - bind_inv H. eauto.
Qed.

End Invariant.

(** X2: the written table is well formed when the table read is: its
    columns are as long as its index and no two share a name. *)
Lemma pipeline_well_formed (df df' : DataFrame) :
  well_formed df -> pipeline df = Ok df' -> well_formed df'.
Proof.
  apply (foldM_run_invariant well_formed).
  intros d d' a. apply run_well_formed.
Qed.

(** No assignment adds or drops a row. *)
Lemma pipeline_index (df df' : DataFrame) :
  pipeline df = Ok df' -> index df' = index df.
Proof.
  apply (foldM_run_invariant (fun d => index d = index df)); [|reflexivity].
  intros d d' a Hd Hrun. apply run_index in Hrun. congruence.
Qed.

(** ** Python's division on examples *)

Example truediv_third :
  Py.truediv (VInt 1) (VInt 3) = Ok (VFloat (S754_finite false 6004799503160661 (-54))).
Proof. vm_compute. reflexivity. Qed.

Example truediv_exact :
  Py.truediv (VInt 150) (VInt 3) = Ok (VFloat (F64.of_Z 50)).
Proof. vm_compute. reflexivity. Qed.

Example truediv_by_zero :
  Py.truediv (VInt 150) (VInt 0) = Raise ZeroDivisionError /\
  Py.truediv (VFloat (F64.of_Z 150)) (VFloat (F64.of_Z 0)) = Raise ZeroDivisionError.
Proof. split; reflexivity. Qed.

(** [overflow_threshold] is where rounding to nearest reaches infinity. *)
Example overflow_threshold_rounds :
  F64.of_Z F64.overflow_threshold = F64.inf /\
  F64.of_Z (F64.overflow_threshold - 1) = S754_finite false 9007199254740991 971 /\
  F64.div (F64.exact (7 * F64.overflow_threshold)) (F64.exact 7) = F64.inf /\
  F64.div (F64.exact (7 * F64.overflow_threshold - 1)) (F64.exact 7) =
    S754_finite false 9007199254740991 971.
Proof. repeat split; vm_compute; reflexivity. Qed.

(** ** Tables the notebook stops on *)

Example pipeline_missing_column :
  pipeline (mkDataFrame 1 [("price", [VInt 10])]) = Raise (KeyError "number_of_reviews").
Proof. reflexivity. Qed.

Example pipeline_string_cell :
  pipeline (mkDataFrame 1 [("number_of_reviews", [VStr "many"])]) = Raise TypeError.
Proof. reflexivity. Qed.


(** ** More tables of the examples *)

Lemma mistyped_well_formed : well_formed mistyped.
Proof. well_formed_table. Qed.

Lemma gaps_well_formed : well_formed gaps.
Proof. well_formed_table. Qed.

Example pipeline_gaps : pipeline gaps = Ok gaps_featured.
Proof. vm_compute. reflexivity. Qed.

Example pipeline_mistyped : pipeline mistyped = Raise TypeError.
Proof. vm_compute. reflexivity. Qed.

Lemma listings_well_typed : well_typed listings.
Proof.
  split; eexists; (split; [reflexivity|]); repeat constructor; simpl; lia.
Qed.

(** ** Assigning a column twice *)

Lemma overwrite_absent (l : list (string * Series)) (k : string) (s : Series) :
  ~ In k (map fst l) ->
  map (fun c : string * Series => if String.eqb (fst c) k then (k, s) else c) l = l.
Proof.
  induction l as [|[k' c] l IH]; simpl; intros Hk; [reflexivity|].
  destruct (String.eqb_spec k' k) as [->|_]; [tauto|].
  f_equal. apply IH. tauto.
Qed.

Lemma overwrite_same (l : list (string * Series)) (k : string) (s : Series) :
  NoDup (map fst l) -> Pd.lookup k l = Some s ->
  map (fun c : string * Series => if String.eqb (fst c) k then (k, s) else c) l = l.
Proof.
  induction l as [|[k' c] l IH]; simpl; intros Hnd Hk; [reflexivity|].
  inversion Hnd as [|? ? Hout Hnd']; subst.
  destruct (String.eqb_spec k' k) as [->|_].
  - inversion Hk; subst. f_equal. now apply overwrite_absent.
  - f_equal. now apply IH.
Qed.

Lemma has_column_In (df : DataFrame) (key : string) :
  Pd.has_column df key = true <-> In key (Pd.column_names df).
Proof.
  rewrite has_column_lookup, in_column_names.
  destruct (Pd.lookup key (columns df)); split; congruence.
Qed.

(** Storing the series a column holds already changes nothing. *)
Lemma setitem_same (df : DataFrame) (k : string) (s : Series) :
  well_formed df -> Pd.lookup k (columns df) = Some s -> Pd.setitem df k s = Ok df.
Proof.
  intros Hwf Hk. unfold Pd.setitem.
  rewrite (column_length _ _ _ Hwf Hk), Nat.eqb_refl; simpl.
  rewrite has_column_lookup, Hk.
  rewrite overwrite_same by (try assumption; apply Hwf).
  now destruct df.
Qed.

(** Of two assignments to one name the second one counts. *)
Lemma setitem_twice (df df1 : DataFrame) (k : string) (s0 s : Series) :
  Pd.setitem df k s0 = Ok df1 -> Pd.setitem df1 k s = Pd.setitem df k s.
Proof.
  intros H. destruct (setitem_inv _ _ _ _ H) as (_ & Hidx & Hl).
  assert (Hhas : Pd.has_column df1 k = true)
    by (rewrite has_column_lookup, Hl, String.eqb_refl; reflexivity).
  unfold Pd.setitem in H |- *. rewrite Hidx, Hhas.
  destruct (negb (List.length s0 =? index df)%nat); [discriminate|].
  destruct (negb (List.length s =? index df)%nat); [reflexivity|].
  destruct (Pd.has_column df k) eqn:Hk; inversion H; subst df1; clear H; simpl;
    do 2 f_equal.
  - rewrite map_map. apply map_ext. intros [k' c]; simpl.
    destruct (String.eqb_spec k' k) as [->|Hne]; simpl.
    + now rewrite String.eqb_refl.
    + now destruct (String.eqb_spec k' k).
  - rewrite map_app; simpl. rewrite String.eqb_refl. f_equal.
    apply overwrite_absent. intros Hin.
    apply has_column_In in Hin. congruence.
Qed.

Lemma setitem_Ok (df : DataFrame) (k : string) (s : Series) :
  List.length s = index df -> exists df', Pd.setitem df k s = Ok df'.
Proof.
  intros Hlen. unfold Pd.setitem. rewrite Hlen, Nat.eqb_refl; simpl.
  destruct (Pd.has_column df k); eauto.
Qed.

(** ** The written table, read again *)

Lemma promote_Object_l (a : dtype) : Pd.promote Object a = Object.
Proof. now destruct a. Qed.

Lemma dtype_of_text (s : Series) (x : string) : In (VStr x) s -> Pd.dtype_of s = Object.
Proof.
  intros Hin. unfold Pd.dtype_of.
  assert (Hno : forall f : value -> bool, f (VStr x) = false -> forallb f s = false).
  { intros f Hf. destruct (forallb f s) eqn:Hall; [|reflexivity].
    rewrite forallb_forall in Hall. rewrite <- Hf. symmetry. now apply Hall. }
  now rewrite !Hno.
Qed.

(** A text cell in a column other than [has_review] makes the rows the
    [price_per_night] cell maps over object rows. *)
Lemma rows_dtype_text (df : DataFrame) (key : string) (s : Series) (x : string) :
  key <> "has_review" -> Pd.lookup key (columns df) = Some s -> In (VStr x) s ->
  rows_dtype df = Object.
Proof.
  intros Hkey Hl Hin. unfold rows_dtype; cbn [Pd.result_type].
  rewrite <- (promote_absorb Object); [apply promote_Object_l|].
  unfold Pd.dtypes, Pd.drop; cbn [columns].
  induction (columns df) as [|[k c] l IH]; simpl in *; [discriminate|].
  destruct (String.eqb_spec k key) as [->|Hne].
  - inversion Hl; subst c.
    destruct (String.eqb_spec key "has_review") as [->|_]; [congruence|]. simpl.
    left. now apply (dtype_of_text _ x).
  - destruct (negb (String.eqb k "has_review")); simpl; [right|]; now apply IH.
Qed.

Lemma categorize_availability_text (x v : value) :
  categorize_availability x = Ok v -> exists label, v = VStr label.
Proof.
  intros H.
  destruct (categorize_availability_cases _ _ H)
    as [(_ & ->)|[(_ & _ & ->)|[(_ & _ & _ & ->)|(_ & _ & _ & ->)]]]; eauto.
Qed.

(** The table written from a table with a row holds text: its rows are
    object rows. *)
Lemma written_rows_dtype (df df' : DataFrame) :
  well_formed df -> pipeline df = Ok df' -> (0 < index df)%nat ->
  rows_dtype df' = Object.
Proof.
  intros Hwf H Hpos.
  destruct (pipeline_columns _ _ H)
    as (reviews & avail & rooms & s1 & s2 & s4 & s5 &
        G1 & G4 & G6 & E1 & E2 & E4 & E5 & Hidx & L1 & L2 & L4 & L5 & L6 & Hother).
  pose proof (mapM_length _ _ _ E5) as N5.
  rewrite (column_length _ _ _ Hwf G4) in N5.
  destruct avail as [|x0 avail']; [simpl in E5; inversion E5; subst; simpl in N5; lia|].
  simpl in E5. bind_inv E5. bind_inv E5. inversion E5; subst s5.
  destruct (categorize_availability_text _ _ Ha) as [label ->].
  apply (rows_dtype_text df' "seasonal_availability" (VStr label :: a0) label);
    [discriminate|exact L5|now left].
Qed.

(** X4: on a table whose rows are object rows, as they are when a column
    other than [has_review] holds text, the notebook is idempotent: run on
    the table it wrote, it writes that table again. *)
Theorem pipeline_idempotent (df df' : DataFrame) :
  well_formed df -> rows_dtype df = Object ->
  pipeline df = Ok df' -> pipeline df' = Ok df'.
Proof.
  intros Hwf Hdt H.
  assert (Hwf' : well_formed df')
    by (apply (foldM_run_invariant well_formed run_well_formed assignments df);
        assumption).
  destruct (pipeline_columns _ _ H)
    as (reviews & avail & rooms & s1 & s2 & s4 & s5 &
        G1 & G4 & G6 & E1 & (E2 & Hprobe) & E4 & E5 & Hidx & L1 & L2 & L4 & L5 & L6 & Hother).
  assert (Hsrc : forall key, In key source_columns ->
                 Pd.lookup key (columns df') = Pd.lookup key (columns df)).
  { intros key Hkey. apply Hother. unfold derived_columns; simpl in *.
    intuition (subst; discriminate). }
  pose proof (Hsrc "number_of_reviews") as S1. pose proof (Hsrc "price") as Sp.
  pose proof (Hsrc "minimum_nights") as Sm. pose proof (Hsrc "availability_365") as S4.
  pose proof (Hsrc "room_type") as S6. simpl in S1, Sp, Sm, S4, S6.
  rewrite <- S1 in G1 by tauto. rewrite <- S4 in G4 by tauto. rewrite <- S6 in G6 by tauto.
  (* the rows of the written table give the ratios of the rows read *)
  assert (E2' : mapM price_ratio (ratio_rows df') = Ok s2).
  { rewrite <- E2. unfold ratio_rows. rewrite Hidx.
    destruct (Nat.eq_dec (index df) 0) as [H0|H0]; [now rewrite H0|].
    rewrite (written_rows_dtype df df') by (try assumption; lia).
    rewrite Hdt. apply mapM_price_ratio_rows; tauto. }
  assert (R1 : run df' assign_has_review = Ok df').
  { unfold run; cbn [fst snd assign_has_review].
    pose proof G1 as G1'. apply getitem_Ok in G1'. rewrite G1'; cbn [bind].
    unfold Pd.series_apply. rewrite E1; cbn [bind].
    now apply setitem_same. }
  assert (P2 : snd assign_price_per_night df' = Ok s2).
  { apply (price_column_after_flag df' df' reviews s1 s2 G1 E1).
    - now apply setitem_same.
    - split; [assumption|]. intros H0. rewrite Sm by tauto. apply Hprobe. congruence. }
  assert (Hlen : List.length s2 = index df')
    by (rewrite (mapM_length _ _ _ E2'), ratio_rows_length; reflexivity).
  destruct (setitem_Ok df' "price_per_night" s2 Hlen) as [dfa Ha].
  assert (R2 : run df' assign_price_per_night = Ok dfa)
    by (unfold run; rewrite P2; cbn [bind fst assign_price_per_night]; exact Ha).
  assert (R3 : run dfa assign_price_per_night_finite = Ok df').
  { unfold run; cbn [fst snd assign_price_per_night_finite].
    destruct (setitem_inv _ _ _ _ Ha) as (_ & _ & Hl).
    unfold Pd.getitem. rewrite Hl; cbn [String.eqb bind]. simpl.
    rewrite (setitem_twice _ _ _ _ _ Ha). now apply setitem_same. }
  assert (R4 : run df' assign_active_listing = Ok df').
  { unfold run; cbn [fst snd assign_active_listing].
    pose proof G4 as G4'. apply getitem_Ok in G4'. rewrite G4'; cbn [bind].
    unfold Pd.series_apply. rewrite E4; cbn [bind].
    now apply setitem_same. }
  assert (R5 : run df' assign_seasonal_availability = Ok df').
  { unfold run; cbn [fst snd assign_seasonal_availability].
    pose proof G4 as G4'. apply getitem_Ok in G4'. rewrite G4'; cbn [bind].
    unfold Pd.series_apply. rewrite E5; cbn [bind].
    now apply setitem_same. }
  assert (R6 : run df' assign_is_entire_home = Ok df').
  { unfold run; cbn [fst snd assign_is_entire_home].
    pose proof G6 as G6'. apply getitem_Ok in G6'. rewrite G6'; cbn [bind].
    now apply setitem_same. }
  unfold pipeline, assignments, cells; cbn [List.concat app foldM].
  rewrite R1; cbn [bind]. rewrite R2; cbn [bind]. rewrite R3; cbn [bind].
  rewrite R4; cbn [bind]. rewrite R5; cbn [bind]. rewrite R6; cbn [bind].
  reflexivity.
Qed.

Lemma pipeline_idempotent_witness : pipeline listings_featured = Ok listings_featured.
Proof.
  apply (pipeline_idempotent listings listings_featured).
  - exact listings_well_formed.
  - reflexivity.
  - exact pipeline_listings.
Defined.

(** On a table of integers only the second run divides otherwise: the
    written table holds the text of [seasonal_availability], so its rows are
    object rows. *)
Example pipeline_coded_again :
  exists df'', pipeline coded_featured = Ok df'' /\
               Pd.at_ coded_featured 0 "price_per_night" <>
               Pd.at_ df'' 0 "price_per_night".
Proof. eexists. split; [vm_compute; reflexivity|]. vm_compute. discriminate. Qed.

Lemma pipeline_total_witness : exists df', pipeline listings = Ok df'.
Proof.
  apply (pipeline_total listings).
  - exact listings_well_formed.
  - exact listings_well_typed.
Defined.

Lemma pipeline_well_formed_witness : well_formed listings_featured.
Proof.
  apply (pipeline_well_formed listings listings_featured).
  - exact listings_well_formed.
  - exact pipeline_listings.
Defined.

(** X3: on every table, also one that holds derived names already, the
    notebook keeps the number of rows and leaves every column that is not
    one of the five derived columns as it was. *)
Theorem pipeline_keeps_other_columns (df df' : DataFrame) :
  pipeline df = Ok df' ->
  index df' = index df /\
  forall key, ~ In key derived_columns ->
              Pd.getitem (columns df') key = Pd.getitem (columns df) key.
Proof.
  intros H. split; [now apply pipeline_index|].
  destruct (pipeline_columns _ _ H)
    as (c1 & c2 & c3 & s1 & s2 & s4 & s5 & _ & _ & _ & _ & _ & _ & _ & _ &
        _ & _ & _ & _ & _ & Hother).
  intros key Hkey. unfold Pd.getitem. now rewrite (Hother key Hkey).
Qed.

Lemma pipeline_keeps_other_columns_witness :
  index relisted_featured = index relisted /\
  forall key, ~ In key derived_columns ->
              Pd.getitem (columns relisted_featured) key = Pd.getitem (columns relisted) key.
Proof.
  apply (pipeline_keeps_other_columns relisted relisted_featured).
  exact pipeline_relisted.
Defined.

(** ** What the outcome depends on *)

(** X5: whether the notebook completes, and what its derived columns hold,
    depends on the five source columns and on the dtype of the rows only: on
    a second table with as many rows, the same source columns and rows of
    the same dtype it completes as well and derives the same five columns,
    whatever else the two tables hold. *)
Theorem pipeline_reads_source_columns_only (df1 df1' df2 : DataFrame) :
  well_formed df2 -> index df1 = index df2 -> rows_dtype df1 = rows_dtype df2 ->
  (forall key, In key source_columns ->
               Pd.getitem (columns df1) key = Pd.getitem (columns df2) key) ->
  pipeline df1 = Ok df1' ->
  exists df2',
    pipeline df2 = Ok df2' /\
    forall key, In key derived_columns ->
                Pd.getitem (columns df2') key = Pd.getitem (columns df1') key.
Proof.
  intros Hwf Hidx Hdt Hsame H.
  assert (Hsrc : forall key, In key source_columns ->
                 Pd.lookup key (columns df1) = Pd.lookup key (columns df2)).
  { intros key Hkey. specialize (Hsame key Hkey). unfold Pd.getitem in Hsame.
    revert Hsame.
    destruct (Pd.lookup key (columns df1)), (Pd.lookup key (columns df2));
      congruence. }
  destruct (pipeline_columns _ _ H)
    as (reviews & avail & rooms & s1 & s2 & s4 & s5 &
        G1 & G4 & G6 & E1 & (E2 & Hprobe) & E4 & E5 & _ & L1 & L2 & L4 & L5 & L6 & _).
  rewrite (Hsrc "number_of_reviews") in G1 by (simpl; tauto).
  rewrite (Hsrc "availability_365") in G4 by (simpl; tauto).
  rewrite (Hsrc "room_type") in G6 by (simpl; tauto).
  rewrite (Hsrc "minimum_nights"), Hidx in Hprobe by (simpl; tauto).
  unfold ratio_rows in E2.
  rewrite Hidx, Hdt, (mapM_price_ratio_rows _ df1 df2) in E2
    by (apply Hsrc; simpl; tauto).
  fold (ratio_rows df2) in E2.
  destruct (pipeline_complete df2 _ _ _ _ _ _ _ Hwf G1 G4 G6 E1 E2 Hprobe E4 E5)
    as [df2' H2].
  exists df2'. split; [assumption|].
  destruct (pipeline_columns _ _ H2)
    as (reviews' & avail' & rooms' & t1 & t2 & t4 & t5 &
        G1' & G4' & G6' & E1' & (E2' & _) & E4' & E5' & _ & M1 & M2 & M4 & M5 & M6 & _).
  rewrite G1 in G1'; inversion G1'; subst reviews'.
  rewrite G4 in G4'; inversion G4'; subst avail'.
  rewrite G6 in G6'; inversion G6'; subst rooms'.
  rewrite E1 in E1'; inversion E1'; subst t1.
  rewrite E2 in E2'; inversion E2'; subst t2.
  rewrite E4 in E4'; inversion E4'; subst t4.
  rewrite E5 in E5'; inversion E5'; subst t5.
  intros key Hkey. unfold derived_columns in Hkey; simpl in Hkey. unfold Pd.getitem.
  destruct Hkey as [<-|[<-|[<-|[<-|[<-|[]]]]]];
    [rewrite M1, L1|rewrite M2, L2|rewrite M4, L4|rewrite M5, L5|rewrite M6, L6];
    reflexivity.
Qed.

Lemma pipeline_reads_source_columns_only_witness :
  exists df2',
    pipeline (mkDataFrame 4 (("host", [VStr "a"; VStr "b"; VStr "c"; VStr "d"])
                             :: List.tl (columns listings))) = Ok df2' /\
    forall key, In key derived_columns ->
                Pd.getitem (columns df2') key = Pd.getitem (columns listings_featured) key.
Proof.
  apply (pipeline_reads_source_columns_only listings listings_featured).
  - well_formed_table.
  - reflexivity.
  - reflexivity.
  - intros key Hkey. simpl in Hkey.
    destruct Hkey as [<-|[<-|[<-|[<-|[<-|[]]]]]]; reflexivity.
  - exact pipeline_listings.
Defined.

(** ** What the notebook raises *)

Lemma bind_Raise {A B : Type} (m : result A) (k : A -> result B) (e : exn) :
  (x <- m;; k x) = Raise e -> m = Raise e \/ exists a, m = Ok a /\ k a = Raise e.
Proof.
  destruct m as [a|e']; simpl; intros H.
  - right. now exists a.
  - left. now inversion H.
Qed.

Lemma mapM_Raise {A B : Type} (f : A -> result B) (l : list A) (e : exn) :
  mapM f l = Raise e -> exists a, In a l /\ f a = Raise e.
Proof.
  induction l as [|a l IH]; simpl; intros H; [discriminate|].
  apply bind_Raise in H. destruct H as [H|(b & _ & H)].
  - exists a. tauto.
  - apply bind_Raise in H. destruct H as [H|(bs & _ & H)]; [|discriminate].
    destruct (IH H) as (a' & Hin & Ha'). exists a'. tauto.
Qed.

Lemma getitem_Raise {A : Type} (l : list (string * A)) (key : string) (e : exn) :
  Pd.getitem l key = Raise e -> e = KeyError key /\ Pd.lookup key l = None.
Proof.
  unfold Pd.getitem. destruct (Pd.lookup key l); intros H; inversion H. tauto.
Qed.

Lemma flag_positive_Raise (x : value) (e : exn) :
  flag_positive x = Raise e -> e = TypeError /\ exists s, x = VStr s.
Proof.
  destruct x as [n|f|s]; simpl; intros H; inversion H. eauto.
Qed.

Lemma categorize_availability_Raise (x : value) (e : exn) :
  categorize_availability x = Raise e -> e = TypeError /\ exists s, x = VStr s.
Proof.
  unfold categorize_availability.
  destruct x as [n|f|s]; simpl.
  - destruct (n =? 0); [discriminate|]. destruct (n <=? 120); [discriminate|].
    destruct (n <=? 240); discriminate.
  - destruct (F64.eqb f _); [discriminate|]. destruct (F64.leb f _); [discriminate|].
    destruct (F64.leb f _); discriminate.
  - intros H; inversion H. eauto.
Qed.

(** Behind its guard the division divides by no zero. *)
Lemma truediv_guarded_Raise (p m : value) (e : exn) :
  gt_zero m -> Py.truediv p m = Raise e -> e = TypeError \/ e = OverflowError.
Proof.
  destruct p as [p|x|s], m as [q|y|t]; cbn [Py.truediv gt_zero]; try tauto;
    intros Hpos H; try (inversion H; tauto).
  - destruct (Z.eqb_spec q 0); [lia|].
    destruct (_ <=? _); inversion H; tauto.
  - unfold Py.to_float, Py.float_truediv in H.
    destruct (_ <=? _); cbn [bind] in H; [inversion H; tauto|].
    destruct y as [s|s| |s m e']; try destruct s; try discriminate.
  - unfold Py.to_float in H.
    destruct (Z.eqb_spec q 0); [lia|].
    destruct (_ <=? _); cbn [bind] in H; inversion H; tauto.
  - unfold Py.float_truediv in H.
    destruct y as [s|s| |s m e']; try destruct s; try discriminate.
Qed.

Lemma row_truediv_guarded_Raise (dt : dtype) (p m : value) (e : exn) :
  gt_zero m -> Pd.truediv dt p m = Raise e -> e = TypeError \/ e = OverflowError.
Proof.
  intros Hpos. destruct dt; cbn [Pd.truediv]; eauto using truediv_guarded_Raise;
    unfold Np.truediv; destruct p, m; simpl; intros H; inversion H; tauto.
Qed.

Lemma price_ratio_Raise (row : Row) (e : exn) :
  price_ratio row = Raise e ->
  (e = KeyError "minimum_nights" /\ Pd.lookup "minimum_nights" (row_cells row) = None) \/
  (e = KeyError "price" /\ Pd.lookup "price" (row_cells row) = None) \/
  e = TypeError \/ e = OverflowError.
Proof.
  unfold price_ratio. intros H.
  apply bind_Raise in H. destruct H as [H|(m & Hm & H)].
  { apply getitem_Raise in H. tauto. }
  apply bind_Raise in H. destruct H as [H|(b & Hb & H)].
  { destruct m; simpl in H; inversion H. tauto. }
  apply gt_0_gt_zero in Hb. destruct b; [|discriminate].
  apply bind_Raise in H. destruct H as [H|(p & Hp & H)].
  { apply getitem_Raise in H. tauto. }
  rewrite Hm in H; simpl in H.
  right; right. apply (row_truediv_guarded_Raise (row_dtype row) p m);
    [now apply Hb|assumption].
Qed.

Lemma run_Raise (df : DataFrame) (a : assignment) (e : exn) :
  run df a = Raise e ->
  snd a df = Raise e \/ exists s, snd a df = Ok s /\ List.length s <> index df.
Proof.
  unfold run. intros H. apply bind_Raise in H. destruct H as [H|(s & Hs & H)]; [tauto|].
  right. exists s. split; [assumption|]. intros Hlen.
  destruct (setitem_Ok df (fst a) s Hlen) as [df' Hdf']. congruence.
Qed.

Lemma lookup_row_None (dt : dtype) (df : DataFrame) (i : nat) (key : string) :
  Pd.lookup key (row_cells (Pd.row_as dt df i)) = None ->
  Pd.lookup key (columns df) = None.
Proof.
  unfold Pd.row_as; cbn [row_cells].
  rewrite (lookup_map_snd (fun s : Series => Pd.astype dt (nth i s Py.nan))).
  now destruct (Pd.lookup key (columns df)).
Qed.

Lemma missing_source_column (df : DataFrame) (key : string) :
  In key source_columns -> Pd.lookup key (columns df) = None ->
  expected_error df (KeyError key).
Proof.
  intros Hkey Hnone. left. exists key. repeat split; try assumption.
  now apply lookup_None.
Qed.

(** On a table with rows and columns what the first assignment of the
    [price_per_night] cell raises, one of its rows raises. *)
Lemma price_column_Raise (df : DataFrame) (e : exn) :
  (0 < index df)%nat -> columns df <> [] ->
  snd assign_price_per_night df = Raise e ->
  expected_error df e.
Proof.
  intros Hpos Hcols. simpl. unfold Pd.frame_apply.
  destruct (Nat.eqb_spec (index df) 0) as [H0|_]; [lia|].
  destruct (Nat.eqb_spec (List.length (columns df)) 0) as [H0|_];
    [destruct (columns df); [congruence|discriminate]|].
  simpl. intros H.
  apply bind_Raise in H. destruct H as [H|(v & Hv & H)].
  - apply bind_Raise in H. destruct H as [H|(s & _ & H)]; [|discriminate].
    unfold Pd.rows in H.
    apply mapM_Raise in H. destruct H as (row & Hrow & H).
    apply in_map_iff in Hrow. destruct Hrow as (i & <- & _).
    apply price_ratio_Raise in H.
    destruct H as [(-> & H)|[(-> & H)|H]].
    + apply missing_source_column; [simpl; tauto|eauto using lookup_row_None].
    + apply missing_source_column; [simpl; tauto|eauto using lookup_row_None].
    + right. assumption.
  - bind_inv Hv. inversion Hv; subst v. discriminate.
Qed.

Lemma expected_error_lookup (df df1 : DataFrame) (e : exn) :
  (forall key, In key source_columns ->
               Pd.lookup key (columns df1) = Pd.lookup key (columns df)) ->
  expected_error df1 e -> expected_error df e.
Proof.
  intros Hsame [(key & -> & Hkey & Hout)|H]; [|now right].
  apply missing_source_column; [assumption|].
  rewrite <- (Hsame key Hkey). now apply lookup_None.
Qed.

(** X6: on a well-formed table with at least one row the notebook raises
    nothing but the [KeyError] of a source column the table lacks, a
    [TypeError] or an [OverflowError]: no [ZeroDivisionError] passes the
    guard of the division, and no assignment meets a column of another
    length. *)
Theorem pipeline_raises (df : DataFrame) (e : exn) :
  well_formed df -> (0 < index df)%nat -> pipeline df = Raise e ->
  expected_error df e.
Proof.
  intros Hwf Hpos H. unfold pipeline, assignments in H.
  cbn [cells List.concat app foldM] in H.
  (* has_review *)
  apply bind_Raise in H. destruct H as [H|(df1 & R1 & H)].
  { apply run_Raise in H. destruct H as [H|(s & Hs & Hlen)]; simpl in *.
    - apply bind_Raise in H. destruct H as [H|(c & Hc & H)].
      + apply getitem_Raise in H. destruct H as [-> H].
        apply missing_source_column; [simpl; tauto|assumption].
      + apply mapM_Raise in H. destruct H as (x & _ & H).
        apply flag_positive_Raise in H. right; left; tauto.
    - bind_inv Hs. apply getitem_Ok in Ha. exfalso. apply Hlen.
      rewrite (mapM_length _ _ _ Hs). eauto using column_length. }
  apply run_inv in R1. destruct R1 as (s1 & E1 & _ & I1 & L1). simpl in L1.
  cbn [snd assign_has_review] in E1. bind_inv E1. apply getitem_Ok in Ha.
  rename a into reviews, Ha into G1.
  (* price_per_night *)
  apply bind_Raise in H. destruct H as [H|(df2 & R2 & H)].
  { apply run_Raise in H.
    destruct H as [H|(s & Hs & Hlen)].
    - apply (expected_error_lookup df df1).
      + intros key Hkey. rewrite L1. simpl in Hkey.
        destruct Hkey as [<-|[<-|[<-|[<-|[<-|[]]]]]]; reflexivity.
      + apply price_column_Raise; [lia| |assumption].
        intros Hnil. specialize (L1 "has_review"). rewrite Hnil in L1. discriminate.
    - exfalso. apply Hlen.
      apply (price_column_Ok df1 "has_review" "number_of_reviews") in Hs;
        [|discriminate|rewrite L1; discriminate|rewrite L1; simpl; congruence].
      destruct Hs as [Hs _]. now rewrite (mapM_length _ _ _ Hs), rows_length. }
  pose proof R2 as R2'. apply run_inv in R2'.
  destruct R2' as (s2 & E2 & N2 & I2 & L2). simpl in L2.
  apply bind_Raise in H. destruct H as [H|(df3 & R3 & H)].
  { apply run_Raise in H. simpl in H. unfold Pd.getitem in H. rewrite L2 in H; simpl in H.
    destruct H as [H|(s & Hs & Hlen)]; [discriminate|].
    inversion Hs; subst s. exfalso. apply Hlen.
    unfold Pd.replace. rewrite length_map. congruence. }
  apply run_inv in R3. destruct R3 as (s3 & _ & _ & I3 & L3). simpl in L3.
  (* active_listing *)
  apply bind_Raise in H. destruct H as [H|(df4 & R4 & H)].
  { apply run_Raise in H. simpl in H. unfold Pd.getitem in H.
    rewrite L3, L2, L1 in H; simpl in H. fold (Pd.getitem (columns df) "availability_365") in H.
    destruct H as [H|(s & Hs & Hlen)].
    - apply bind_Raise in H. destruct H as [H|(c & Hc & H)].
      + apply getitem_Raise in H. destruct H as [-> H].
        apply missing_source_column; [simpl; tauto|assumption].
      + apply mapM_Raise in H. destruct H as (x & _ & H).
        apply flag_positive_Raise in H. right; left; tauto.
    - bind_inv Hs. apply getitem_Ok in Ha. exfalso. apply Hlen.
      rewrite (mapM_length _ _ _ Hs), (column_length _ _ _ Hwf Ha). congruence. }
  apply run_inv in R4. destruct R4 as (s4 & _ & _ & I4 & L4). simpl in L4.
  (* seasonal_availability *)
  apply bind_Raise in H. destruct H as [H|(df5 & R5 & H)].
  { apply run_Raise in H. simpl in H. unfold Pd.getitem in H.
    rewrite L4, L3, L2, L1 in H; simpl in H.
    fold (Pd.getitem (columns df) "availability_365") in H.
    destruct H as [H|(s & Hs & Hlen)].
    - apply bind_Raise in H. destruct H as [H|(c & Hc & H)].
      + apply getitem_Raise in H. destruct H as [-> H].
        apply missing_source_column; [simpl; tauto|assumption].
      + apply mapM_Raise in H. destruct H as (x & _ & H).
        apply categorize_availability_Raise in H. right; left; tauto.
    - bind_inv Hs. apply getitem_Ok in Ha. exfalso. apply Hlen.
      rewrite (mapM_length _ _ _ Hs), (column_length _ _ _ Hwf Ha). congruence. }
  apply run_inv in R5. destruct R5 as (s5 & _ & _ & I5 & L5). simpl in L5.
  (* is_entire_home *)
  apply bind_Raise in H. destruct H as [H|(df6 & R6 & H)]; [|discriminate].
  apply run_Raise in H. simpl in H. unfold Pd.getitem in H.
  rewrite L5, L4, L3, L2, L1 in H; simpl in H.
  fold (Pd.getitem (columns df) "room_type") in H.
  destruct H as [H|(s & Hs & Hlen)].
  - apply bind_Raise in H. destruct H as [H|(c & Hc & H)]; [|discriminate].
    apply getitem_Raise in H. destruct H as [-> H].
    apply missing_source_column; [simpl; tauto|assumption].
  - bind_inv Hs. apply getitem_Ok in Ha. inversion Hs; subst s. exfalso. apply Hlen.
    unfold Pd.eq_astype_int. rewrite length_map, (column_length _ _ _ Hwf Ha). congruence.
Qed.

Lemma pipeline_raises_witness : expected_error mistyped TypeError.
Proof.
  apply (pipeline_raises mistyped TypeError).
  - exact mistyped_well_formed.
  - simpl. lia.
  - exact pipeline_mistyped.
Defined.

(** ** What a written table required *)

(** X7: a table is written only when the table read has the columns
    [number_of_reviews], [availability_365] and [room_type]; when it has a
    row, also [minimum_nights]; and [price] only when some row has a
    [minimum_nights] greater than 0. *)
Theorem pipeline_needs_columns (df df' : DataFrame) :
  pipeline df = Ok df' ->
  In "number_of_reviews" (Pd.column_names df) /\
  In "availability_365" (Pd.column_names df) /\
  In "room_type" (Pd.column_names df) /\
  ((0 < index df)%nat -> In "minimum_nights" (Pd.column_names df)) /\
  (forall i m, (i < index df)%nat -> Pd.at_ df i "minimum_nights" = Ok m ->
               gt_zero m -> In "price" (Pd.column_names df)).
Proof.
  intros H.
  destruct (pipeline_columns _ _ H)
    as (reviews & avail & rooms & s1 & s2 & s4 & s5 &
        G1 & G4 & G6 & _ & E2 & _).
  assert (Hrow : forall i, (i < index df)%nat ->
                 exists v, price_ratio (Pd.row_as (rows_dtype df) df i) = Ok v).
  { intros i Hi. exists (nth i s2 Py.nan). destruct E2 as (E2 & _).
    rewrite <- (ratio_rows_nth df i (mkRow Object [])) by assumption.
    apply mapM_nth; [assumption|now rewrite ratio_rows_length]. }
  assert (Hat : forall i key x, Pd.at_ df i key = Ok x -> In key (Pd.column_names df)).
  { intros i key x Hx. apply in_column_names. unfold Pd.at_, Pd.getitem in Hx.
    now destruct (Pd.lookup key (columns df)). }
  repeat split; try (apply in_column_names; congruence).
  - intros Hpos. destruct (Hrow 0%nat Hpos) as [v Hv].
    destruct (ratio_cases _ _ _ _ Hv) as (m & Hm & _).
    exact (Hat _ _ _ Hm).
  - intros i m Hi Hm Hpos. destruct (Hrow i Hi) as [v Hv].
    destruct (ratio_cases _ _ _ _ Hv) as (m' & Hm' & [(_ & p & q & Hp & _)|(Hneg & _)]).
    + exact (Hat _ _ _ Hp).
    + rewrite Hm in Hm'. inversion Hm'; subst m'. contradiction.
Qed.

Lemma pipeline_needs_columns_witness :
  In "number_of_reviews" (Pd.column_names listings) /\
  In "availability_365" (Pd.column_names listings) /\
  In "room_type" (Pd.column_names listings) /\
  ((0 < index listings)%nat -> In "minimum_nights" (Pd.column_names listings)) /\
  (forall i m, (i < index listings)%nat -> Pd.at_ listings i "minimum_nights" = Ok m ->
               gt_zero m -> In "price" (Pd.column_names listings)).
Proof.
  apply (pipeline_needs_columns listings listings_featured).
  exact pipeline_listings.
Defined.

(** Without a positive stay the [price] column is never read. *)
Example pipeline_unpriced :
  exists df', pipeline unpriced = Ok df' /\
              Pd.getitem (columns df') "price_per_night" = Ok [Py.nan].
Proof. eexists. split; vm_compute; reflexivity. Qed.

Lemma In_column_row (df : DataFrame) (key : string) (c : Series) (x : value) :
  well_formed df -> Pd.lookup key (columns df) = Some c -> In x c ->
  exists i, (i < index df)%nat /\ Pd.at_ df i key = Ok x.
Proof.
  intros Hwf Hc Hx.
  destruct (In_nth _ _ Py.nan Hx) as (i & Hi & Hnth).
  exists i. rewrite (column_length _ _ _ Hwf Hc) in Hi.
  split; [assumption|]. now rewrite (at_column _ _ _ _ Hc), Hnth.
Qed.

(** X8: a table is written only when no cell of [number_of_reviews],
    [minimum_nights] and [availability_365] is a string: one string in one
    row of these columns stops the notebook for every row. *)
Theorem pipeline_needs_numbers (df df' : DataFrame) (key : string) (c : Series) (s : string) :
  well_formed df -> pipeline df = Ok df' ->
  In key ["number_of_reviews"; "minimum_nights"; "availability_365"] ->
  Pd.getitem (columns df) key = Ok c ->
  ~ In (VStr s) c.
Proof.
  intros Hwf H Hkey Hc Hin. apply getitem_Ok in Hc.
  destruct (In_column_row _ _ _ _ Hwf Hc Hin) as (i & Hi & Hcell).
  destruct (pipeline_row _ _ _ Hwf H Hi)
    as (n & a & r & f & q & act & sea & Hn & Ha & _ & Hf & Hq & Hact & _).
  simpl in Hkey. destruct Hkey as [<-|[<-|[<-|[]]]].
  - rewrite Hcell in Hn. inversion Hn; subst n. discriminate.
  - unfold price_ratio in Hq. rewrite getitem_row_at, Hcell in Hq.
    now destruct (rows_dtype df).
  - rewrite Hcell in Ha. inversion Ha; subst a. discriminate.
Qed.

Lemma pipeline_needs_numbers_witness : ~ In (VStr "none") [VInt 9; VInt 45; VInt 0; VInt 270].
Proof.
  apply (pipeline_needs_numbers listings listings_featured "number_of_reviews").
  - exact listings_well_formed.
  - exact pipeline_listings.
  - simpl. tauto.
  - reflexivity.
Defined.

(** ** [categorize_availability] on every cell *)

(** X9: [categorize_availability] raises [TypeError] on a string and
    returns one of the four labels on every number, [nan] and the
    infinities included. *)
Theorem categorize_availability_any (x : value) :
  (exists s, x = VStr s /\ categorize_availability x = Raise TypeError) \/
  (numeric x /\
   exists label, categorize_availability x = Ok (VStr label) /\
                 In label ["Not Available"; "Low"; "Medium"; "High"]).
Proof.
  destruct x as [n|f|s].
  - right. split; [exact I|].
    unfold categorize_availability; simpl.
    destruct (n =? 0); [exists "Not Available"; simpl; tauto|].
    destruct (n <=? 120); simpl; [exists "Low"; simpl; tauto|].
    destruct (n <=? 240); simpl; [exists "Medium"|exists "High"]; simpl; tauto.
  - right. split; [exact I|].
    unfold categorize_availability; simpl.
    destruct (F64.eqb f _); [exists "Not Available"; simpl; tauto|].
    destruct (F64.leb f _); simpl; [exists "Low"; simpl; tauto|].
    destruct (F64.leb f _); simpl; [exists "Medium"|exists "High"]; simpl; tauto.
  - left. now exists s.
Qed.

(** X11: on the integers from 0 on the label grows with the availability:
    of two availabilities the larger one never gets the lower label. *)
Theorem categorize_availability_monotone (x y : Z) :
  0 <= x -> x <= y ->
  exists lx ly,
    categorize_availability (VInt x) = Ok (VStr lx) /\
    categorize_availability (VInt y) = Ok (VStr ly) /\
    (label_rank lx <= label_rank ly)%nat.
Proof.
  intros Hx Hxy. unfold categorize_availability; simpl.
  destruct (Z.eqb_spec x 0), (Z.eqb_spec y 0),
           (Z.leb_spec x 120), (Z.leb_spec y 120),
           (Z.leb_spec x 240), (Z.leb_spec y 240); simpl;
    try lia; do 2 eexists; (split; [reflexivity|]); (split; [reflexivity|]);
    vm_compute; lia.
Qed.

Lemma categorize_availability_monotone_witness :
  exists lx ly,
    categorize_availability (VInt 120) = Ok (VStr lx) /\
    categorize_availability (VInt 121) = Ok (VStr ly) /\
    (label_rank lx <= label_rank ly)%nat.
Proof.
  apply (categorize_availability_monotone 120 121); lia.
Defined.

(** Below 0 the order breaks: a negative availability is "Low", above the
    "Not Available" of 0. *)
Example categorize_availability_below_zero :
  categorize_availability (VInt (-1)) = Ok (VStr "Low") /\
  categorize_availability (VInt 0) = Ok (VStr "Not Available") /\
  (label_rank "Not Available" < label_rank "Low")%nat.
Proof. repeat split. vm_compute. lia. Qed.

(** ** Missing values *)

(** X10: in a row whose [availability_365] is missing ([nan]) the listing
    is not active and its label is "High": every comparison with [nan] is
    false, so the last branch of [categorize_availability] is taken. *)
Theorem missing_availability_row (df df' : DataFrame) (i : nat) :
  well_formed df -> pipeline df = Ok df' -> (i < index df)%nat ->
  Pd.at_ df i "availability_365" = Ok Py.nan ->
  Pd.at_ df' i "active_listing" = Ok (VInt 0) /\
  Pd.at_ df' i "seasonal_availability" = Ok (VStr "High").
Proof.
  intros Hwf H Hi Ha.
  destruct (pipeline_row _ _ _ Hwf H Hi)
    as (n & a & r & f & q & act & sea & _ & Ha' & _ & _ & _ & Hact & Hsea &
        _ & _ & Hout1 & Hout2 & _).
  rewrite Ha in Ha'. inversion Ha'; subst a; clear Ha'.
  inversion Hact; subst act. inversion Hsea; subst sea. tauto.
Qed.

Lemma missing_availability_row_witness :
  Pd.at_ gaps_featured 0 "active_listing" = Ok (VInt 0) /\
  Pd.at_ gaps_featured 0 "seasonal_availability" = Ok (VStr "High").
Proof.
  apply (missing_availability_row gaps gaps_featured 0).
  - exact gaps_well_formed.
  - exact pipeline_gaps.
  - simpl. lia.
  - reflexivity.
Defined.

(** ** The sign of a quotient *)

Lemma binary_round_aux_sign (mx ex : Z) (lx : location) :
  sign_clear (binary_round_aux F64.prec F64.emax false mx ex lx).
Proof.
  unfold binary_round_aux.
  destruct (shr_fexp F64.prec F64.emax mx ex lx) as [mrs' e'].
  destruct (shr_fexp F64.prec F64.emax _ e' loc_Exact) as [mrs'' e''].
  destruct (shr_m mrs''); simpl; try reflexivity.
  destruct (e'' <=? _); reflexivity.
Qed.

Lemma of_Z_sign (n : Z) : 0 <= n -> sign_clear (F64.of_Z n).
Proof.
  destruct n as [|m|m]; intros Hn; [reflexivity| |lia].
  unfold F64.of_Z, binary_normalize, binary_round.
  destruct (shl_align m 0 _) as [mz ez]. apply binary_round_aux_sign.
Qed.

Lemma exact_sign (n : Z) : 0 <= n -> sign_clear (F64.exact n).
Proof. destruct n; intros Hn; [reflexivity|reflexivity|lia]. Qed.

Lemma sign_clear_not_negative (f : float) : sign_clear f -> not_negative f.
Proof. destruct f; simpl; tauto. Qed.

(** The quotient of a dividend that is not negative by a divisor with a
    clear sign is not negative. *)
Lemma div_not_negative (x y : float) :
  not_negative x -> sign_clear y -> not_negative (F64.div x y).
Proof.
  destruct x as [sx|sx| |sx mx ex], y as [sy|sy| |sy my ey]; simpl;
    intros Hx Hy; subst; try exact I; try reflexivity.
  unfold F64.div, SFdiv.
  destruct (SFdiv_core_binary F64.prec F64.emax (Z.pos mx) ex (Z.pos my) ey) as [[mz ez] lz].
  apply sign_clear_not_negative. apply binary_round_aux_sign.
Qed.

Lemma not_negative_ltb (f : float) :
  not_negative f -> F64.ltb f (F64.of_Z 0) = false.
Proof.
  rewrite of_Z_0. destruct f as [s|s| |s m e]; simpl; intros H; subst; reflexivity.
Qed.

Lemma ge_zero_not_negative (x : float) : ge_zero (VFloat x) -> not_negative x.
Proof.
  cbn [ge_zero]. rewrite of_Z_0.
  destruct x as [s|s| |s m e]; try destruct s; simpl; intros H; try reflexivity;
    try exact I; discriminate.
Qed.

Lemma gt_zero_sign_clear (y : float) : gt_zero (VFloat y) -> sign_clear y.
Proof.
  cbn [gt_zero]. rewrite of_Z_0.
  destruct y as [s|s| |s m e]; try destruct s; simpl; intros H; try reflexivity;
    try exact I; discriminate.
Qed.

Lemma truediv_not_negative (p m : value) (q : float) :
  ge_zero p -> gt_zero m -> Py.truediv p m = Ok (VFloat q) -> not_negative q.
Proof.
  destruct p as [p|x|s], m as [n|y|t]; cbn [Py.truediv]; try discriminate;
    intros Hp Hm H.
  - destruct (n =? 0); [discriminate|]. destruct (_ <=? _); [discriminate|].
    inversion H. apply div_not_negative.
    + apply sign_clear_not_negative, exact_sign. exact Hp.
    + apply exact_sign. simpl in Hm. lia.
  - unfold Py.to_float, Py.float_truediv in H.
    destruct (_ <=? _); cbn [bind] in H; [discriminate|].
    destruct (F64.is_zero y); [discriminate|]. inversion H.
    apply div_not_negative; [|now apply gt_zero_sign_clear].
    apply sign_clear_not_negative, of_Z_sign. exact Hp.
  - unfold Py.to_float in H.
    destruct (n =? 0); [discriminate|].
    destruct (_ <=? _); cbn [bind] in H; [discriminate|]. inversion H.
    apply div_not_negative; [now apply ge_zero_not_negative|].
    apply of_Z_sign. simpl in Hm. lia.
  - unfold Py.float_truediv in H.
    destruct (F64.is_zero y); [discriminate|]. inversion H.
    apply div_not_negative; [now apply ge_zero_not_negative|now apply gt_zero_sign_clear].
Qed.

Lemma float64_astype (dt : dtype) (x : value) :
  Np.float64 (Pd.astype dt x) = Np.float64 x.
Proof. now destruct dt, x. Qed.

Lemma float64_not_negative (p : value) (x : float) :
  ge_zero p -> Np.float64 p = Ok x -> not_negative x.
Proof.
  destruct p as [n|f|s]; cbn [Np.float64]; intros Hp H; inversion H; subst.
  - apply sign_clear_not_negative, of_Z_sign. exact Hp.
  - now apply ge_zero_not_negative.
Qed.

Lemma float64_sign_clear (m : value) (y : float) :
  gt_zero m -> Np.float64 m = Ok y -> sign_clear y.
Proof.
  destruct m as [n|f|s]; cbn [Np.float64]; intros Hm H; inversion H; subst.
  - apply of_Z_sign. simpl in Hm. lia.
  - now apply gt_zero_sign_clear.
Qed.

(** In either dtype the quotient of a [price] that is 0 or more by a
    positive [minimum_nights] is not negative. *)
Lemma quotient_not_negative (dt : dtype) (p m : value) (q : float) :
  ge_zero p -> gt_zero m -> Pd.quotient dt p m = Ok (VFloat q) -> not_negative q.
Proof.
  intros Hp Hm H. unfold Pd.quotient in H.
  assert (Hnp : Np.truediv (Pd.astype dt p) (Pd.astype dt m) = Ok (VFloat q) ->
                not_negative q).
  { clear H. unfold Np.truediv. rewrite !float64_astype. intros H.
    bind_inv H. rename a into x, Ha into Hx.
    bind_inv H. rename a into y, Ha into Hy.
    inversion H. apply div_not_negative.
    - exact (float64_not_negative _ _ Hp Hx).
    - exact (float64_sign_clear _ _ Hm Hy). }
  destruct dt; cbn [Pd.truediv] in H; try (now apply Hnp).
  now apply (truediv_not_negative p m).
Qed.

(** X12: in a row whose [price] is 0 or more, [price_per_night] is a float
    that is not below 0 (it may be [nan]). *)
Theorem price_per_night_not_negative (df df' : DataFrame) (i : nat) (p : value) :
  well_formed df -> pipeline df = Ok df' -> (i < index df)%nat ->
  Pd.at_ df i "price" = Ok p -> ge_zero p ->
  exists r,
    Pd.at_ df' i "price_per_night" = Ok (VFloat r) /\
    F64.ltb r (F64.of_Z 0) = false.
Proof.
  intros Hwf H Hi Hp Hge.
  destruct (pipeline_row _ _ _ Hwf H Hi)
    as (n & a & rt & f & ratio & act & sea & _ & _ & _ & _ & Hratio & _ & _ &
        _ & Hout & _).
  destruct (ratio_cases _ _ _ _ Hratio)
    as (m & Hm & [(Hpos & p' & q & Hp' & Hq & ->)|(Hneg & ->)]).
  - rewrite Hp in Hp'. inversion Hp'; subst p'; clear Hp'.
    rewrite replace_cell_infinities in Hout.
    exists (if F64.is_inf q then F64.nan else q). split; [assumption|].
    apply not_negative_ltb.
    destruct (F64.is_inf q); [exact I|].
    now apply (quotient_not_negative (rows_dtype df) p m).
  - exists F64.nan. split; [assumption|reflexivity].
Qed.

Lemma price_per_night_not_negative_witness :
  exists r,
    Pd.at_ listings_featured 3 "price_per_night" = Ok (VFloat r) /\
    F64.ltb r (F64.of_Z 0) = false.
Proof.
  apply (price_per_night_not_negative listings listings_featured 3 (VInt 89)).
  - exact listings_well_formed.
  - exact pipeline_listings.
  - simpl. lia.
  - reflexivity.
  - simpl. lia.
Defined.
